(** * Blogger export to Markdown: the conversion pipeline of [legacy.py]

    A shallow embedding of [main] of [legacy.py]: the classification loop over
    the parsed feed entries, the loop attaching comments to posts, and the
    loop writing one Markdown document per post.

    Python values are modelled as follows.
    - [str] is [string]; a character is a code point below 256.
    - A feed entry (a [FeedParserDict]) is a record of optional fields: a
      field that is [None] is a key the entry does not have.
    - An exception is a value of [exn]; a computation that may raise is in
      the error monad [result].
    - The output is the list of lines printed with [print] and the list of
      files written; the progress messages of [typer] are left out.
    - The [posts] dictionary is an association list in insertion order.
    - Entry objects carry their position in [data.entries], which stands for
      Python object identity. *)

From Stdlib Require Import String Ascii List Arith Lia Bool Permutation.
From Stdlib Require Import DecimalString.
Import ListNotations.
Open Scope list_scope.
Open Scope string_scope.

(** ** Python [str] operations used by the script *)

Module PyStr.

(** [len(s)] *)
Definition len (s : string) : nat := String.length s.

(** [s.startswith(p)] *)
Fixpoint startswith (p s : string) : bool :=
  match p with
  | EmptyString => true
  | String a p' =>
      match s with
      | EmptyString => false
      | String b s' => if Ascii.eqb a b then startswith p' s' else false
      end
  end.

(** [sub in s]: [sub] occurs in [s] as a substring. *)
Fixpoint contains (sub s : string) : bool :=
  if startswith sub s then true
  else match s with
       | EmptyString => false
       | String _ s' => contains sub s'
       end.

(** [s[n:]] *)
Fixpoint drop (n : nat) (s : string) : string :=
  match n, s with
  | S k, String _ s' => drop k s'
  | _, _ => s
  end.

(** [s[:n]] *)
Fixpoint slice_to (n : nat) (s : string) : string :=
  match n, s with
  | S k, String c s' => String c (slice_to k s')
  | _, _ => EmptyString
  end.

(** The scan of [s.replace(old, new)]: [skip] counts the characters of a
    matched occurrence of [old] that are still to be passed over.  With an
    empty [old], Python inserts [new] before every character and at the
    end. *)
Fixpoint replace_from (old new : string) (skip : nat) (s : string) : string :=
  match s with
  | EmptyString =>
      match old with
      | EmptyString => new
      | String _ _ => EmptyString
      end
  | String c s' =>
      match skip with
      | S k => replace_from old new k s'
      | O =>
          if startswith old s then
            new ++ match len old with
                   | O => String c (replace_from old new 0 s')
                   | S k => replace_from old new k s'
                   end
          else String c (replace_from old new 0 s')
      end
  end.

(** [s.replace(old, new)] *)
Definition replace (old new s : string) : string := replace_from old new 0 s.

(** [c.isspace()] for a code point below 256. *)
Definition is_space (c : ascii) : bool :=
  let n := nat_of_ascii c in
  (Nat.leb 9 n && Nat.leb n 13) || (Nat.leb 28 n && Nat.leb n 32)
  || Nat.eqb n 133 || Nat.eqb n 160.

(** [s.lstrip()] *)
Fixpoint lstrip (s : string) : string :=
  match s with
  | EmptyString => EmptyString
  | String c s' => if is_space c then lstrip s' else s
  end.

(** [s.rstrip()] *)
Fixpoint rstrip (s : string) : string :=
  match s with
  | EmptyString => EmptyString
  | String c s' =>
      match rstrip s' with
      | EmptyString => if is_space c then EmptyString else String c EmptyString
      | r => String c r
      end
  end.

(** [s.strip()] *)
Definition strip (s : string) : string := rstrip (lstrip s).

(** [str(n)] for a non-negative integer. *)
Definition str_of_nat (n : nat) : string :=
  NilEmpty.string_of_uint (Nat.to_uint n).

(** [str.join] with the empty separator: the strings written one after
    the other. *)
Definition join (l : list string) : string := fold_right append EmptyString l.

(** Every character of [s] is white space. *)
Fixpoint all_space (s : string) : bool :=
  match s with
  | EmptyString => true
  | String c s' => is_space c && all_space s'
  end.

End PyStr.

(** ** Exceptions and the error monad *)

(** The two exceptions a failed lookup raises: [d[k]] on a missing key raises
    [KeyError]; [o.name] on a missing attribute raises [AttributeError]. *)
Inductive exn : Type :=
| KeyError (key : string)
| AttributeError (name : string).

Inductive result (A : Type) : Type :=
| Ok (a : A)
| Raise (e : exn).
Arguments Ok {A} a.
Arguments Raise {A} e.

Definition bind {A B : Type} (m : result A) (k : A -> result B) : result B :=
  match m with
  | Ok a => k a
  | Raise e => Raise e
  end.

Notation "x <- m ;; k" := (bind m (fun x => k))
  (at level 61, m at next level, right associativity).

(** The line feed character as a string. *)
Definition nl : string := String "010"%char EmptyString.

(** ** The parsed feed, as [feedparser.parse] hands it to [main] *)

Module Feed.

(** An element of [entry.tags]; only ["term"] is read.  Every category is
    taken to have a term: a category element without a [term] attribute is
    not represented. *)
Record Tag : Type := { term : string }.

(** The attributes of the [thr:in-reply-to] element of a comment. *)
Record ReplyTo : Type := { reply_href : option string }.

(** [entry["author_detail"]] *)
Record AuthorDetail : Type := { name : option string }.

(** The keys of an entry that [main] reads. *)
Record Entry : Type := {
  link : option string;
  href : option string;
  tags : option (list Tag);
  title : option string;
  published : option string;
  summary : option string;
  thr_in_reply_to : option ReplyTo;
  author_detail : option AuthorDetail
}.

(** [data]: [data["feed"]["link"]] and [data.entries]. *)
Record Parsed : Type := {
  feed_link : option string;
  entries : list Entry
}.

(** [d[key]]: subscript lookup. *)
Definition getitem {A : Type} (key : string) (field : option A) : result A :=
  match field with
  | Some v => Ok v
  | None => Raise (KeyError key)
  end.

(** [d.key]: attribute lookup; [FeedParserDict.__getattr__] turns the
    [KeyError] of a missing key into an [AttributeError]. *)
Definition getattr {A : Type} (key : string) (field : option A) : result A :=
  match field with
  | Some v => Ok v
  | None => Raise (AttributeError key)
  end.

(** [entry.category]: [FeedParserDict] serves the key ["category"] as
    [tags[0]["term"]], the term of the first category element, and has no
    such key when [tags] is missing or empty. *)
Definition category (e : Entry) : result string :=
  match tags e with
  | Some (t :: _) => Ok (term t)
  | _ => Raise (AttributeError "category")
  end.

End Feed.

(** ** The [posts] dictionary *)

(** An entry object: its position in [data.entries] (its identity) and its
    fields. *)
Definition Obj : Type := (nat * Feed.Entry)%type.

(** A post: the entry and the list stored under its key ["comments"]. *)
Record Post : Type := {
  p_entry : Obj;
  p_comments : list Obj
}.

Module Dict.

(** A Python [dict] with [str] keys: bindings in insertion order. *)
Definition t (V : Type) : Type := list (string * V).

(** [d.get(k)] *)
Fixpoint get {V : Type} (k : string) (d : t V) : option V :=
  match d with
  | [] => None
  | (k', v) :: d' => if String.eqb k k' then Some v else get k d'
  end.

(** [k in d] *)
Definition mem {V : Type} (k : string) (d : t V) : bool :=
  match get k d with
  | Some _ => true
  | None => false
  end.

(** [d[k] = v]: an existing key keeps its place, a new key goes last. *)
Fixpoint set {V : Type} (k : string) (v : V) (d : t V) : t V :=
  match d with
  | [] => [(k, v)]
  | (k', v') :: d' =>
      if String.eqb k k' then (k, v) :: d' else (k', v') :: set k v d'
  end.

End Dict.

Definition Posts : Type := Dict.t Post.

(** ** [yaml.dump] on the front matter *)

Module Yaml.
Import PyStr.

(** The values the front matter holds. *)
Inductive value : Type :=
| YStr (s : string)
| YBool (b : bool)
| YInt (n : nat)
| YSeq (items : list string).

(** A [dict] handed to [yaml.dump], in insertion order. *)
Definition mapping : Type := list (string * value).

(** [sorted(mapping.items())]: [yaml.dump] is called without [sort_keys],
    whose default [True] makes the representer sort the items by key. *)
Fixpoint insert_item (kv : string * value) (l : mapping) : mapping :=
  match l with
  | [] => [kv]
  | x :: l' =>
      if String.leb (fst kv) (fst x) then kv :: l else x :: insert_item kv l'
  end.

Fixpoint sort_items (d : mapping) : mapping :=
  match d with
  | [] => []
  | kv :: d' => insert_item kv (sort_items d')
  end.

Section Emitter.

(** The emitter's rendering of a [str] scalar that starts at a given
    column: its choice between plain and quoted style and its line
    folding are not modelled. *)
Variable write_scalar : nat -> string -> string.

(** One [key: value] item of a block mapping. *)
Definition dump_item (kv : string * value) : string :=
  let (k, v) := kv in
  match v with
  | YStr s => k ++ ": " ++ write_scalar (len k + 2) s ++ nl
  | YBool b => k ++ ": " ++ (if b then "true" else "false") ++ nl
  | YInt n => k ++ ": " ++ str_of_nat n ++ nl
  | YSeq [] => k ++ ": []" ++ nl
  | YSeq items =>
      k ++ ":" ++ nl
        ++ join (map (fun i => ("- " ++ write_scalar 2 i ++ nl)%string) items)
  end.

(** [yaml.dump(d)] in block style. *)
Definition dump (d : mapping) : string :=
  match d with
  | [] => "{}" ++ nl
  | _ => join (map dump_item (sort_items d))
  end.

End Emitter.

(** The keys in the order in which [dump] writes them. *)
Definition dumped_keys (d : mapping) : list string := map fst (sort_items d).

End Yaml.

(** ** [main], loop by loop *)

Module Main.
Import PyStr Feed.

(** *** Lines 60-80: classification *)

(** The body of the [try] block for one entry, on the pair
    [(posts, comments)]: the three [continue] filters, then the comment or
    post branch. *)
Definition classify_body (posts : Posts) (comments : list Obj) (entry : Obj)
  : result (Posts * list Obj) :=
  l <- getattr "link" (link (snd entry)) ;;
  if contains "tag:blogger.com" l then Ok (posts, comments) else
  h <- getitem "href" (href (snd entry)) ;;
  if contains "comments" h then Ok (posts, comments) else
  c <- category (snd entry) ;;
  if contains "#settings" c then Ok (posts, comments) else
  c' <- category (snd entry) ;;
  if contains "#comment" c' then Ok (posts, (comments ++ [entry])%list) else
  l' <- getattr "link" (link (snd entry)) ;;
  Ok (Dict.set l' {| p_entry := entry; p_comments := [] |} posts, comments).

(** [print("Error: {}".format(e))] for a [KeyError] on [key]. *)
Definition error_line (key : string) : string := "Error: '" ++ key ++ "'".

(** The state of [main] between statements: the two collections and the
    lines printed so far. *)
Record State : Type := {
  posts : Posts;
  comments : list Obj;
  stdout : list string
}.

(** The [for entry in data.entries] loop.  A [KeyError] is caught and
    printed; any other exception leaves the loop and [main]. *)
Fixpoint classify_loop (es : list Obj) (st : State) : State * option exn :=
  match es with
  | [] => (st, None)
  | entry :: es' =>
      match classify_body (posts st) (comments st) entry with
      | Ok (p, c) =>
          classify_loop es' {| posts := p; comments := c; stdout := stdout st |}
      | Raise (KeyError k) =>
          classify_loop es'
            {| posts := posts st; comments := comments st;
               stdout := (stdout st ++ [error_line k])%list |}
      | Raise e => (st, Some e)
      end
  end.

(** *** Lines 82-88: attaching comments *)

(** [comment["thr_in-reply-to"]["href"]] *)
Definition reply_target (comment : Obj) : result string :=
  r <- getitem "thr_in-reply-to" (thr_in_reply_to (snd comment)) ;;
  getitem "href" (reply_href r).

(** The line printed for a comment without a post. *)
Definition warning_line (t : string) : string :=
  "Warning: Comment '" ++ t ++ "' has no corresponding post!".

(** [posts[post_link]["comments"].append(comment)] on the post [p] found
    under [post_link]. *)
Definition append_comment (p : Post) (comment : Obj) : Post :=
  {| p_entry := p_entry p; p_comments := (p_comments p ++ [comment])%list |}.

(** The [for comment in comments] loop; nothing is caught here. *)
Fixpoint attach_loop (cs : list Obj) (ps : Posts) (out : list string)
  : (Posts * list string) * option exn :=
  match cs with
  | [] => ((ps, out), None)
  | comment :: cs' =>
      match reply_target comment with
      | Raise e => ((ps, out), Some e)
      | Ok post_link =>
          match Dict.get post_link ps with
          | Some p =>
              attach_loop cs' (Dict.set post_link (append_comment p comment) ps) out
          | None =>
              match getattr "title" (title (snd comment)) with
              | Raise e => ((ps, out), Some e)
              | Ok t => attach_loop cs' ps (out ++ [warning_line t])%list
              end
          end
      end
  end.

(** *** Lines 98-109: the file name *)

(** The term that marks an entry as a post, as line 115 spells it. *)
Definition kind_post : string :=
  "https://schemas.google.com/blogger/2008/kind#post".

(** Line 98. *)
Definition html_to_md (key : string) : string := replace ".html" ".md" key.

(** Line 100: the second form of the feed link. *)
Definition https_link (root : string) : string := replace "http" "https" root.

(** Lines 98-101: [filename] before the two tests. *)
Definition stripped_name (feed_link : option string) (key : string)
  : result string :=
  let filename := html_to_md key in
  root <- getitem "link" feed_link ;;
  let filename := replace root "" filename in
  root' <- getitem "link" feed_link ;;
  let link := https_link root' in
  Ok (replace link "" filename).

(** Line 104. *)
Definition blank (filename : string) : bool :=
  Nat.eqb (len (strip filename)) 0.

(** Lines 98-109: [None] is [continue], [Some f] the flat file name. *)
Definition derive_filename (feed_link : option string) (key : string)
  : result (option string) :=
  filename <- stripped_name feed_link key ;;
  if blank filename then Ok None
  else if startswith "p-" filename then Ok None
  else Ok (Some (replace "/" "-" filename)).

(** *** Lines 111-127: tags and front matter *)

(** Lines 111-118. *)
Definition post_tags (value : Obj) (tag : string) : result (list string) :=
  ts <- getattr "tags" (tags (snd value)) ;;
  let tags := map term ts in
  let tags := filter (fun x => negb (String.eqb x kind_post)) tags in
  Ok (tags ++ [tag])%list.

(** Lines 119-127: the [frontmatter] dict, keys in the order written. *)
Definition frontmatter (value : Obj) (filename : string) (tags : list string)
  : result Yaml.mapping :=
  date <- getitem "published" (published (snd value)) ;;
  let slug := replace ".md" "" filename in
  t <- getitem "title" (title (snd value)) ;;
  Ok [ ("date", Yaml.YStr date);
       ("published", Yaml.YBool true);
       ("slug", Yaml.YStr slug);
       ("tags", Yaml.YSeq tags);
       ("time_to_read", Yaml.YInt 5);
       ("title", Yaml.YStr t);
       ("description", Yaml.YStr "") ].

(** *** Lines 128-152: the document *)

(** Lines 148-150: the header of one comment. *)
Definition comment_header (comment : Obj) : result string :=
  a <- getitem "author_detail" (author_detail (snd comment)) ;;
  n <- getitem "name" (name a) ;;
  p <- getitem "published" (published (snd comment)) ;;
  Ok ("**" ++ n ++ " said on " ++ slice_to 10 p ++ "**" ++ nl ++ nl).

(** Lines 147-152: what the loop over the comments writes, and the
    exception that ends it, if any. *)
Fixpoint write_comments (cs : list Obj) : string * option exn :=
  match cs with
  | [] => (EmptyString, None)
  | comment :: cs' =>
      match comment_header comment with
      | Raise e => (EmptyString, Some e)
      | Ok h =>
          match getitem "summary" (summary (snd comment)) with
          | Raise e => (h, Some e)
          | Ok body =>
              let (rest, r) := write_comments cs' in
              (h ++ body ++ nl ++ nl ++ rest, r)
          end
      end
  end.

(** Lines 142-145: the rule and the heading that open the comments. *)
Definition comments_heading (n : nat) (key : string) : string :=
  nl ++ nl ++ "---" ++ nl ++ nl
    ++ "## " ++ str_of_nat n ++ " comments captured from [original post]("
    ++ key ++ ") on Blogger" ++ nl ++ nl.

(** Lines 141-152: everything written after the body. *)
Definition write_comments_block (key : string) (cs : list Obj)
  : string * option exn :=
  match cs with
  | [] => (EmptyString, None)
  | _ :: _ =>
      let (text, r) := write_comments cs in
      (comments_heading (List.length cs) key ++ text, r)
  end.

(** Line 136. *)
Definition original_note (key : string) : string :=
  "*This was originally posted on blogger [here](" ++ key ++ ")*." ++ nl ++ nl.

(** The options of the command line that the loops read. *)
Record Args : Type := {
  tag : string;
  show_original : bool
}.

(** What a run leaves behind. *)
Record Outcome : Type := {
  printed : list string;
  files : list (string * string);
  raised : option exn
}.

(** [data.entries] with the identity of each entry object. *)
Definition objects (es : list Entry) : list Obj :=
  combine (seq 0 (List.length es)) es.

Section Writing.

Variable write_scalar : nat -> string -> string.
Variable args : Args.

(** Lines 130-152: the text written to the opened file. *)
Definition write_document (fm : Yaml.mapping) (key : string) (value : Post)
  : string * option exn :=
  let head :=
    "---" ++ nl ++ Yaml.dump write_scalar fm ++ "---" ++ nl ++ nl
      ++ (if show_original args then original_note key else EmptyString) in
  match getitem "summary" (summary (snd (p_entry value))) with
  | Raise e => (head, Some e)
  | Ok body =>
      let (block, r) := write_comments_block key (p_comments value) in
      (head ++ body ++ block, r)
  end.

(** Lines 96-152, one iteration: the file written, if any, as its name
    under [output_dir] and its text, and the exception raised, if any.
    [open] of line 128 is taken to succeed. *)
Definition write_post (feed_link : option string) (key : string) (value : Post)
  : option (string * string) * option exn :=
  match derive_filename feed_link key with
  | Raise e => (None, Some e)
  | Ok None => (None, None)
  | Ok (Some filename) =>
      match (tags <- post_tags (p_entry value) (tag args) ;;
             frontmatter (p_entry value) filename tags) with
      | Raise e => (None, Some e)
      | Ok fm =>
          let (text, r) := write_document fm key value in
          (Some (filename, text), r)
      end
  end.

(** The [for key, value in posts.items()] loop: the files written, in
    order, and the exception that ended the loop, if any. *)
Fixpoint write_loop (feed_link : option string) (items : Posts)
  : list (string * string) * option exn :=
  match items with
  | [] => ([], None)
  | (key, value) :: items' =>
      match write_post feed_link key value with
      | (file, Some e) =>
          (match file with Some f => [f] | None => [] end, Some e)
      | (file, None) =>
          let (files, r) := write_loop feed_link items' in
          (match file with Some f => f :: files | None => files end, r)
      end
  end.

(** [main], from the parsed [data] on. *)
Definition main (data : Parsed) : Outcome :=
  let start := {| posts := []; comments := []; stdout := [] |} in
  match classify_loop (objects (entries data)) start with
  | (st, Some e) => {| printed := stdout st; files := []; raised := Some e |}
  | (st, None) =>
      match attach_loop (comments st) (posts st) (stdout st) with
      | ((_, out), Some e) => {| printed := out; files := []; raised := Some e |}
      | ((ps, out), None) =>
          let (fs, r) := write_loop (feed_link data) ps in
          {| printed := out; files := fs; raised := r |}
      end
  end.

End Writing.

End Main.

(** ** Notions the statements are written in *)

Module Spec.
Import PyStr Feed Main.

(** No occurrence of [old] starts inside [a] when [a] is followed by
    [rest]. *)
Fixpoint no_match_in (old a rest : string) : bool :=
  match a with
  | EmptyString => true
  | String c a' => negb (startswith old (a ++ rest)) && no_match_in old a' rest
  end.

(** [Replaced x y s t]: [t] is [s] with the occurrences of the non-empty
    [x] rewritten to [y], found one after the other from the left, each
    search resuming right after the occurrence rewritten before. *)
Inductive Replaced (x y : string) : string -> string -> Prop :=
| Replaced_none (s : string) :
    contains x s = false -> Replaced x y s s
| Replaced_occ (a b b' : string) :
    no_match_in x a (x ++ b) = true ->
    Replaced x y b b' ->
    Replaced x y (a ++ x ++ b) (a ++ y ++ b').

(** Deleting the occurrences of [x]: an empty [x] deletes nothing. *)
Definition Deleted (x s t : string) : Prop :=
  match x with
  | EmptyString => t = s
  | String _ _ => Replaced x "" s t
  end.

(** Step 1 of the file name as the specification words it: only a trailing
    [.html] becomes [.md]. *)
Fixpoint rewrite_suffix (s : string) : string :=
  if String.eqb s ".html" then ".md"
  else match s with
       | EmptyString => EmptyString
       | String c s' => String c (rewrite_suffix s')
       end.

(** The term with which a Blogger export marks an entry as a post. *)
Definition blogger_post_term : string :=
  "http://schemas.google.com/blogger/2008/kind#post".

(** The tags of the front matter as the specification words them: the
    category terms without the term that marks a post, then the user's
    tag. *)
Definition expected_tags (terms : list string) (tag : string) : list string :=
  (remove string_dec blogger_post_term terms ++ [tag])%list.

(** The key order of the front matter in the data model. *)
Definition model_key_order : list string :=
  ["date"; "published"; "slug"; "tags"; "time_to_read"; "title"; "description"].

(** Author, time stamp and body of a comment that has all three. *)
Definition comment_fields (c : Obj) : option (string * string * string) :=
  match author_detail (snd c), published (snd c), summary (snd c) with
  | Some {| name := Some a |}, Some p, Some b => Some (a, p, b)
  | _, _, _ => None
  end.

(** One comment of the comments block: header, blank line, body, blank
    line. *)
Definition render_comment (row : string * string * string) : string :=
  let '(a, p, b) := row in
  "**" ++ a ++ " said on " ++ slice_to 10 p ++ "**" ++ nl ++ nl ++ b ++ nl ++ nl.

(** The comments block of a post with the comments [rows]. *)
Definition comments_block (key : string) (rows : list (string * string * string))
  : string :=
  match rows with
  | [] => EmptyString
  | _ :: _ =>
      comments_heading (List.length rows) key ++ join (map render_comment rows)
  end.





(** The three classes of the specification. *)
Inductive Class : Type := Discard | Comment | Post.

(** The five rules as the specification words them: the two category rules
    look at every category term. *)
Definition classify_any (l h : string) (terms : list string) : Class :=
  if contains "tag:blogger.com" l then Discard
  else if contains "comments" h then Discard
  else if existsb (contains "#settings") terms then Discard
  else if existsb (contains "#comment") terms then Comment
  else Post.

(** The five rules with the category rules on one term [c]. *)
Definition classify_first (l h c : string) : Class :=
  if contains "tag:blogger.com" l then Discard
  else if contains "comments" h then Discard
  else if contains "#settings" c then Discard
  else if contains "#comment" c then Comment
  else Post.

(** What each class does with the entry [entry] of link [l]. *)
Definition file_entry (k : Class) (entry : Obj) (l : string)
  (ps : Posts) (cs : list Obj) : Posts * list Obj :=
  match k with
  | Discard => (ps, cs)
  | Comment => (ps, (cs ++ [entry])%list)
  | Post => (Dict.set l {| p_entry := entry; p_comments := [] |} ps, cs)
  end.

(** The state with one more printed line. *)
Definition with_line (st : State) (line : string) : State :=
  {| posts := posts st; comments := comments st;
     stdout := (stdout st ++ [line])%list |}.

(** The state [main] starts the first loop in. *)
Definition start : State := {| posts := []; comments := []; stdout := [] |}.




End Spec.

(** ** A small feed for the examples *)

Module Sample.
Import Feed Main.

(** A scalar writer that writes every string plain. *)
Definition plain (_ : nat) (s : string) : string := s.

Definition args : Args := {| tag := "legacy-blogger"; show_original := true |}.

Definition kind_comment : string :=
  "http://schemas.google.com/blogger/2008/kind#comment".

(** A post of the blog [http://e/] with the label [travel]. *)
Definition entry_a : Entry :=
  {| link := Some "http://e/2010/05/a.html";
     href := Some "http://e/feeds/1";
     tags := Some [ {| term := kind_post |}; {| term := "travel" |} ];
     title := Some "A";
     published := Some "2010-05-01T08:00:00Z";
     summary := Some "<p>a</p>";
     thr_in_reply_to := None;
     author_detail := None |}.

(** A post as a Blogger export has it: the first category is the kind of
    the entry, the second a label. *)
Definition blogger_post : Entry :=
  {| link := Some "http://e/2010/06/c.html";
     href := Some "http://e/feeds/6";
     tags := Some [ {| term := "http://schemas.google.com/blogger/2008/kind#post" |};
                    {| term := "travel" |} ];
     title := Some "C";
     published := Some "2010-06-01T08:00:00Z";
     summary := Some "<p>c</p>";
     thr_in_reply_to := None;
     author_detail := None |}.

(** A comment on [entry_a], or on another link. *)
Definition comment_on (target who date body : string) : Entry :=
  {| link := Some "http://e/2010/05/a.html?showComment=1";
     href := Some "http://e/feeds/2";
     tags := Some [ {| term := kind_comment |} ];
     title := Some body;
     published := Some date;
     summary := Some body;
     thr_in_reply_to := Some {| reply_href := Some target |};
     author_detail := Some {| name := Some who |} |}.

Definition alice : Entry :=
  comment_on "http://e/2010/05/a.html" "Alice" "2011-01-02T10:00:00Z" "first".
Definition bob : Entry :=
  comment_on "http://e/2010/05/a.html" "Bob" "2011-03-04T09:00:00Z" "second".
Definition stray : Entry :=
  comment_on "http://e/2010/05/gone.html" "Carol" "2011-05-06T07:00:00Z" "lost".

(** A comment entry without its [thr:in-reply-to] element. *)
Definition no_target : Entry :=
  {| link := Some "http://e/2010/05/a.html?showComment=2";
     href := Some "http://e/feeds/3";
     tags := Some [ {| term := kind_comment |} ];
     title := Some "hello";
     published := Some "2011-01-02T10:00:00Z";
     summary := Some "hello";
     thr_in_reply_to := None;
     author_detail := Some {| name := Some "Dan" |} |}.

(** An entry of the settings of the blog, which has no category. *)
Definition settings : Entry :=
  {| link := Some "tag:blogger.com,1999:blog-1.settings.BLOG_NAME";
     href := None;
     tags := None;
     title := Some "Blog name";
     published := None;
     summary := None;
     thr_in_reply_to := None;
     author_detail := None |}.

(** An entry with a link of the blog and no category. *)
Definition no_category : Entry :=
  {| link := Some "http://e/2010/02/x.html";
     href := Some "http://e/feeds/7";
     tags := None;
     title := Some "X";
     published := Some "2010-02-01T08:00:00Z";
     summary := Some "<p>x</p>";
     thr_in_reply_to := None;
     author_detail := None |}.

(** A post entry without a title. *)
Definition untitled : Entry :=
  {| link := Some "http://e/2010/04/u.html";
     href := Some "http://e/feeds/5";
     tags := Some [ {| term := kind_post |} ];
     title := None;
     published := Some "2010-04-01T08:00:00Z";
     summary := Some "<p>u</p>";
     thr_in_reply_to := None;
     author_detail := None |}.

(** A post entry without the key [href]. *)
Definition no_href : Entry :=
  {| link := Some "http://e/2010/03/n.html";
     href := None;
     tags := Some [ {| term := kind_post |} ];
     title := Some "N";
     published := Some "2010-03-01T08:00:00Z";
     summary := Some "<p>n</p>";
     thr_in_reply_to := None;
     author_detail := None |}.

(** [entry_a] as a post with Alice's and Bob's comments attached. *)
Definition post_a : Post :=
  {| p_entry := (0, entry_a); p_comments := [(1, alice); (2, bob)] |}.

Definition feed (es : list Entry) : Parsed :=
  {| feed_link := Some "http://e/"; entries := es |}.

End Sample.

(** ** Notions for the whole run *)

Module Run.
Import PyStr Feed Main.

(** [l1] is [l2] with some elements left out, the others in their order. *)
Inductive Subseq {A : Type} : list A -> list A -> Prop :=
| Subseq_nil : Subseq [] []
| Subseq_skip (x : A) (l1 l2 : list A) : Subseq l1 l2 -> Subseq l1 (x :: l2)
| Subseq_keep (x : A) (l1 l2 : list A) : Subseq l1 l2 -> Subseq (x :: l1) (x :: l2).

(** The entry objects stored in [posts], in the order of the keys. *)
Definition post_entries (ps : Posts) : list Obj :=
  map (fun kv => p_entry (snd kv)) ps.

(** The comment [c] names the key [k] as its reply target. *)
Definition targets (k : string) (c : Obj) : bool :=
  match reply_target c with
  | Ok t => String.eqb t k
  | Raise _ => false
  end.

(** The comment [c] names a reply target that is no key of [ps]. *)
Definition orphan (ps : Posts) (c : Obj) : bool :=
  match reply_target c with
  | Ok t => negb (Dict.mem t ps)
  | Raise _ => false
  end.

(** [posts] with, for each post, the comments of [cs] that name its key
    added in their order. *)
Definition attach_all (cs : list Obj) (ps : Posts) : Posts :=
  map (fun kv =>
         (fst kv,
          {| p_entry := p_entry (snd kv);
             p_comments := (p_comments (snd kv) ++ filter (targets (fst kv)) cs)%list |}))
      ps.

(** The warning for the comment [c]. *)
Definition warning_for (c : Obj) : string :=
  warning_line (match title (snd c) with Some t => t | None => EmptyString end).


(** The entry objects held by the two collections and those still to come
    are pairwise distinct. *)
Definition apart (st : State) (es : list Obj) : Prop :=
  NoDup (map fst (post_entries (posts st) ++ comments st ++ es)%list).

(** The number of posts, comments and printed lines of a state. *)
Definition tally (st : State) : nat :=
  List.length (posts st) + List.length (comments st) + List.length (stdout st).

End Run.

(** * Properties *)

(** ** Python [str] operations *)

Section StrFacts.
Import PyStr.

Lemma startswith_app (p s : string) : startswith p (p ++ s) = true.
Proof.
  induction p as [|a p IH]; simpl; [reflexivity|].
  now rewrite Ascii.eqb_refl.
Qed.

Lemma startswith_split (p s : string) :
  startswith p s = true -> exists r, s = p ++ r.
Proof.
  revert s; induction p as [|a p IH]; intros s H; simpl in *.
  - now exists s.
  - destruct s as [|b s]; [discriminate|].
    destruct (Ascii.eqb a b) eqn:E; [|discriminate].
    apply Ascii.eqb_eq in E; subst b.
    destruct (IH _ H) as [r ->]. now exists r.
Qed.

Lemma drop_app (p s : string) : drop (len p) (p ++ s) = s.
Proof.
  induction p as [|a p IH]; simpl; [now destruct s|exact IH].
Qed.

Lemma app_empty_r (s : string) : s ++ "" = s.
Proof. induction s; simpl; congruence. Qed.

Lemma app_assoc_str (a b c : string) : (a ++ b) ++ c = a ++ b ++ c.
Proof. induction a; simpl; congruence. Qed.

Lemma len_app (a b : string) : len (a ++ b) = len a + len b.
Proof. unfold len; induction a; simpl; congruence. Qed.

Lemma replace_from_drop (old new : string) (k : nat) (s : string) :
  old <> "" -> replace_from old new k s = replace old new (drop k s).
Proof.
  intros Hold; revert k; induction s as [|c s IH]; intros k.
  - destruct k; reflexivity.
  - destruct k as [|k]; [reflexivity|].
    simpl. apply IH.
Qed.

Lemma replace_match (old new s : string) :
  old <> "" -> startswith old s = true ->
  replace old new s = new ++ replace old new (drop (len old) s).
Proof.
  intros Hold H.
  destruct old as [|a o]; [congruence|].
  destruct s as [|c s]; [discriminate|].
  unfold replace at 1. cbn [replace_from]. rewrite H.
  cbn [len String.length drop].
  now rewrite replace_from_drop.
Qed.

Lemma replace_step (old new : string) (c : ascii) (s : string) :
  startswith old (String c s) = false ->
  replace old new (String c s) = String c (replace old new s).
Proof.
  intros H. unfold replace. cbn [replace_from]. now rewrite H.
Qed.

Lemma replace_absent (old new s : string) :
  contains old s = false -> replace old new s = s.
Proof.
  induction s as [|c s IH]; intros H.
  - simpl in H. destruct old; [discriminate|reflexivity].
  - cbn [contains] in H.
    destruct (startswith old (String c s)) eqn:E; [discriminate|].
    rewrite replace_step by exact E. now rewrite IH.
Qed.

Lemma replace_first (old new a b : string) :
  old <> "" ->
  Spec.no_match_in old a (old ++ b) = true ->
  replace old new (a ++ old ++ b) = a ++ new ++ replace old new b.
Proof.
  intros Hold; induction a as [|c a IH]; intros H.
  - cbn [append]. rewrite replace_match by (auto using startswith_app).
    now rewrite drop_app.
  - cbn [Spec.no_match_in] in H. apply andb_prop in H as [H1 H2].
    apply negb_true_iff in H1. cbn [append] in *.
    rewrite replace_step by exact H1. now rewrite IH.
Qed.

Lemma contains_split (old s : string) :
  contains old s = true ->
  exists a b, s = a ++ old ++ b /\ Spec.no_match_in old a (old ++ b) = true.
Proof.
  induction s as [|c s IH]; intros H; cbn [contains] in H.
  - destruct (startswith old "") eqn:E; [|discriminate].
    destruct (startswith_split _ _ E) as [r Hr].
    exists "", r. now split.
  - destruct (startswith old (String c s)) eqn:E.
    + destruct (startswith_split _ _ E) as [r Hr].
      exists "", r. now split.
    + destruct (IH H) as (a & b & -> & Hn).
      exists (String c a), b. split; [reflexivity|].
      cbn [Spec.no_match_in append]. cbn [append] in E. now rewrite E.
Qed.

Lemma replace_Replaced_len (x y : string) (n : nat) (s : string) :
  x <> "" -> len s <= n -> Spec.Replaced x y s (replace x y s).
Proof.
  intros Hx; revert s; induction n as [|n IH]; intros s Hn.
  - destruct s; [|simpl in Hn; lia].
    destruct (contains x "") eqn:E.
    + destruct (contains_split _ _ E) as (a & b & Hs & _).
      destruct a; [destruct x; [congruence|discriminate]|discriminate].
    + rewrite replace_absent by exact E. now constructor.
  - destruct (contains x s) eqn:E.
    + destruct (contains_split _ _ E) as (a & b & -> & Hm).
      rewrite replace_first by assumption.
      constructor; [exact Hm|].
      apply IH. rewrite !len_app in Hn.
      assert (0 < len x) by (destruct x; [congruence|simpl; lia]). lia.
    + rewrite replace_absent by exact E. now constructor.
Qed.

Lemma replace_Replaced (x y s : string) :
  x <> "" -> Spec.Replaced x y s (replace x y s).
Proof. intros Hx. now apply (replace_Replaced_len x y (len s)). Qed.

Lemma Replaced_unique (x y s t : string) :
  x <> "" -> Spec.Replaced x y s t -> t = replace x y s.
Proof.
  intros Hx H; induction H as [s H|a b b' Hm _ IH].
  - now rewrite replace_absent.
  - rewrite replace_first by assumption. now rewrite IH.
Qed.



Lemma replace_empty_old (s : string) : replace "" "" s = s.
Proof.
  unfold replace; induction s as [|c s IH]; [reflexivity|].
  cbn. now rewrite IH.
Qed.

Lemma replace_Deleted (x s : string) : Spec.Deleted x s (replace x "" s).
Proof.
  destruct x as [|c x]; cbn [Spec.Deleted].
  - apply replace_empty_old.
  - now apply replace_Replaced.
Qed.

End StrFacts.

(** ** The file name: lines 98-109 *)

Section FileName.
Import PyStr Feed Main.

(** [.html] has no proper suffix that is also a prefix of it: an occurrence
    cannot begin inside a text and run on into a following [.html]. *)
Lemma html_no_border (a b : string) :
  a <> "" ->
  startswith ".html" (a ++ ".html" ++ b) = true ->
  startswith ".html" a = true.
Proof.
  intros Ha H.
  destruct a as [|c1 [|c2 [|c3 [|c4 [|c5 a]]]]]; [congruence| | | | |];
    cbn [startswith append] in H |- *;
    repeat match type of H with
      | (if Ascii.eqb ?x ?y then _ else _) = true =>
          destruct (Ascii.eqb x y) eqn:?; [|discriminate]
      end; try discriminate; reflexivity.
Qed.

Lemma html_first_occurrence (a b : string) :
  contains ".html" a = false ->
  Spec.no_match_in ".html" a (".html" ++ b) = true.
Proof.
  induction a as [|c a IH]; intros H; [reflexivity|].
  cbn [contains] in H.
  destruct (startswith ".html" (String c a)) eqn:E; [discriminate|].
  cbn [Spec.no_match_in]. rewrite (IH H), andb_true_r.
  apply negb_true_iff.
  destruct (startswith ".html" (String c a ++ ".html" ++ b)) eqn:E'; [|reflexivity].
  apply html_no_border in E'; congruence.
Qed.

Lemma rewrite_suffix_trailing (a : string) :
  Spec.rewrite_suffix (a ++ ".html") = a ++ ".md".
Proof.
  induction a as [|c a IH]; [reflexivity|].
  cbn [append Spec.rewrite_suffix].
  destruct (String.eqb (String c (a ++ ".html")) ".html") eqn:E.
  - apply String.eqb_eq in E. apply (f_equal len) in E.
    cbn [len String.length] in E. fold (len (a ++ ".html")) in E.
    rewrite len_app in E. cbn in E. lia.
  - now rewrite IH.
Qed.

(** C9, the claim as stated, fails: a link in which [.html] is followed by
    a query string has no trailing [.html], so rewriting only a trailing
    [.html] would leave it as it is, but line 98 rewrites the [.html] inside
    it. *)
Lemma C9_inner_html_is_rewritten :
  html_to_md "http://e/2010/a.html?m=1" = "http://e/2010/a.md?m=1" /\
  Spec.rewrite_suffix "http://e/2010/a.html?m=1" = "http://e/2010/a.html?m=1" /\
  html_to_md "http://e/2010/a.html?m=1"
    <> Spec.rewrite_suffix "http://e/2010/a.html?m=1".
Proof. split; [reflexivity|split; [reflexivity|discriminate]]. Qed.

(** C9, amended: step 1 rewrites every occurrence of [.html] in the link to
    [.md], scanning from the left, and leaves every other character as it
    is.  A link without [.html] is unchanged; up to and including its first
    [.html] the result is the text before it followed by [.md]; and when the
    only [.html] of the link is its suffix, the result is the link with that
    suffix rewritten. *)
Theorem C9_html_to_md_rewrites_every_occurrence (key : string) :
  Spec.Replaced ".html" ".md" key (html_to_md key)
  /\ (contains ".html" key = false -> html_to_md key = key)
  /\ (forall a b : string,
        contains ".html" a = false ->
        html_to_md (a ++ ".html" ++ b) = a ++ ".md" ++ html_to_md b)
  /\ (forall a : string,
        contains ".html" a = false ->
        html_to_md (a ++ ".html") = Spec.rewrite_suffix (a ++ ".html")).
Proof.
  split; [apply replace_Replaced; discriminate|].
  split; [apply replace_absent|].
  split.
  - intros a b Ha. unfold html_to_md.
    apply replace_first; [discriminate|now apply html_first_occurrence].
  - intros a Ha. rewrite rewrite_suffix_trailing.
    unfold html_to_md.
    pose proof (replace_first ".html" ".md" a "") as R.
    cbn [append] in R. rewrite R;
      [reflexivity|discriminate|now apply (html_first_occurrence a "")].
Qed.

(** C6, the claim as stated, fails.  A feed link that contains [.html] is
    not removed from a post link that contains it, because the link has been
    rewritten by then: with the feed link [http://e/index.html] the post
    link [http://e/index.html] keeps the whole of it.  And an occurrence of
    the second form is not removed when the first removal has taken a part
    of it: with the feed link [http], whose second form is [https], the post
    link [https://e/x.html] begins with the second form and keeps its
    [s]. *)
Lemma C6_occurrences_left_in_the_link :
  (contains "http://e/index.html" "http://e/index.html" = true
   /\ stripped_name (Some "http://e/index.html") "http://e/index.html"
      = Ok "http://e/index.md")
  /\ (https_link "http" = "https"
      /\ startswith "https" "https://e/x.html" = true
      /\ stripped_name (Some "http") "https://e/x.html" = Ok "s://e/x.md"
      /\ replace "https" "" (html_to_md "https://e/x.html") = "://e/x.md").
Proof. repeat split; reflexivity. Qed.

(** C6, amended: with the feed link [root], the name of lines 98-101 is
    the post link, its [.html] already rewritten to [.md], from which first
    every occurrence of [root] found scanning from the left, then, in what
    remains, every such occurrence of the second form [https_link root] has
    been deleted, wherever in the text the occurrence lies; an occurrence in
    the middle of a link goes like one at its start. *)
Theorem C6_root_deleted_anywhere (root key : string) :
  (exists mid name : string,
      stripped_name (Some root) key = Ok name
      /\ Spec.Deleted root (html_to_md key) mid
      /\ Spec.Deleted (https_link root) mid name)
  /\ stripped_name (Some "http://e/") "http://e/a/http://e/b.html" = Ok "a/b.md"
  /\ stripped_name (Some "http://e/") "mirror-of-https://e/b.html" = Ok "mirror-of-b.md".
Proof.
  split; [|split; reflexivity].
  exists (replace root "" (html_to_md key)).
  exists (replace (https_link root) "" (replace root "" (html_to_md key))).
  split; [reflexivity|].
  split; apply replace_Deleted.
Qed.





Lemma rstrip_empty (s : string) : rstrip s = "" <-> all_space s = true.
Proof.
  induction s as [|c s IH]; cbn [rstrip all_space]; [tauto|].
  destruct (rstrip s) eqn:E.
  - destruct (is_space c); cbn [andb]; [tauto|].
    split; discriminate.
  - split; [discriminate|].
    intros H. apply andb_prop in H as [_ H]. apply IH in H. discriminate.
Qed.

Lemma all_space_lstrip (s : string) : all_space (lstrip s) = all_space s.
Proof.
  induction s as [|c s IH]; [reflexivity|].
  cbn [lstrip all_space]. destruct (is_space c) eqn:E; [exact IH|].
  cbn [all_space]. now rewrite E.
Qed.

Lemma blank_all_space (s : string) : blank s = true <-> all_space s = true.
Proof.
  unfold blank, strip. rewrite Nat.eqb_eq, <- all_space_lstrip, <- rstrip_empty.
  unfold len. destruct (rstrip (lstrip s)); cbn; split; congruence.
Qed.

End FileName.

(** ** Writing the documents: lines 96-152 *)

Section Documents.
Import PyStr Feed Main.

Variable write_scalar : nat -> string -> string.
Variable args : Args.

Lemma derive_filename_skips (feed_link : option string) (key name : string) :
  stripped_name feed_link key = Ok name ->
  all_space name = true \/ startswith "p-" name = true ->
  derive_filename feed_link key = Ok None.
Proof.
  intros Hn H. unfold derive_filename. rewrite Hn. cbn [bind].
  destruct (blank name) eqn:B; [reflexivity|].
  destruct H as [H|H].
  - apply blank_all_space in H. congruence.
  - now rewrite H.
Qed.

Lemma write_loop_skip (feed_link : option string) (key : string) (value : Post)
  (before after : Posts) :
  write_post write_scalar args feed_link key value = (None, None) ->
  write_loop write_scalar args feed_link (before ++ (key, value) :: after)%list
  = write_loop write_scalar args feed_link (before ++ after)%list.
Proof.
  intros H; induction before as [|[k v] before IH]; cbn [app write_loop].
  - rewrite H. now destruct (write_loop write_scalar args feed_link after).
  - now rewrite IH.
Qed.

(** C7: a post whose name after lines 98-101 (suffix rewritten, feed link
    stripped, slashes not yet flattened) is empty or all white space, or
    begins with [p-], is passed over: its iteration writes no file and raises
    nothing, and the files the whole loop writes are those it writes with
    that post left out.  A name is blank for line 104 exactly when all its
    characters are white space; so is the link [p-about.html] under the feed
    link skipped. *)
Theorem C7_blank_or_page_name_writes_nothing
  (feed_link : option string) (key name : string) (value : Post)
  (Hname : stripped_name feed_link key = Ok name)
  (Hskip : all_space name = true \/ startswith "p-" name = true) :
  write_post write_scalar args feed_link key value = (None, None)
  /\ (forall before after : Posts,
        write_loop write_scalar args feed_link (before ++ (key, value) :: after)%list
        = write_loop write_scalar args feed_link (before ++ after)%list)
  /\ (blank name = true <-> all_space name = true)
  /\ write_post write_scalar args (Some "http://example.com/")
       "http://example.com/p-about.html" value = (None, None).
Proof.
  assert (H : write_post write_scalar args feed_link key value = (None, None)).
  { unfold write_post. now rewrite (derive_filename_skips _ _ _ Hname Hskip). }
  split; [exact H|].
  split; [intros; now apply write_loop_skip|].
  split; [apply blank_all_space|reflexivity].
Qed.

Lemma filter_not_eqb_remove (k : string) (l : list string) :
  filter (fun x => negb (String.eqb x k)) l = remove string_dec k l.
Proof.
  induction l as [|x l IH]; [reflexivity|].
  cbn [filter remove]. destruct (string_dec k x) as [<- | Hne].
  - now rewrite String.eqb_refl.
  - destruct (String.eqb x k) eqn:E; [apply String.eqb_eq in E; congruence|].
    cbn [negb]. now rewrite IH.
Qed.

(** C5: the code breaks the claim on a Blogger export.  Line 115 compares
    the terms with the marker spelled with [https]; the export spells the
    marker of a post with [http], so the marker is not removed: for the
    category terms [http://schemas.google.com/blogger/2008/kind#post],
    [travel] and the user tag [legacy-blogger] the claim gives the tags
    [travel], [legacy-blogger], and the code gives the marker, [travel],
    [legacy-blogger].  For every post the tags are the category terms in
    feed order without the terms equal to the literal of line 115, followed
    by the user's tag. *)
Theorem C5_blogger_post_marker_is_kept :
  kind_post = "https://schemas.google.com/blogger/2008/kind#post"
  /\ post_tags (0, Sample.blogger_post) "legacy-blogger"
     = Ok ["http://schemas.google.com/blogger/2008/kind#post"; "travel";
           "legacy-blogger"]
  /\ Spec.expected_tags
       ["http://schemas.google.com/blogger/2008/kind#post"; "travel"]
       "legacy-blogger"
     = ["travel"; "legacy-blogger"]
  /\ post_tags (0, Sample.blogger_post) "legacy-blogger"
     <> Ok (Spec.expected_tags
              ["http://schemas.google.com/blogger/2008/kind#post"; "travel"]
              "legacy-blogger")
  /\ (forall (value : Obj) (user_tag : string) (ts : list Tag),
        tags (snd value) = Some ts ->
        post_tags value user_tag
        = Ok (remove string_dec
                "https://schemas.google.com/blogger/2008/kind#post"
                (map term ts) ++ [user_tag])%list).
Proof.
  split; [reflexivity|]. split; [reflexivity|]. split; [reflexivity|].
  split; [discriminate|].
  intros value user_tag ts Htags. unfold post_tags. rewrite Htags.
  cbn [getattr bind]. now rewrite filter_not_eqb_remove.
Qed.

(** C3, the claim as stated, fails: for the sample post the keys of the
    dumped block come in sorted order, [description] second, not in the
    order of the data model, in which [description] is last. *)
Lemma C3_sample_block_is_sorted_by_key :
  exists fm : Yaml.mapping,
    frontmatter (0, Sample.entry_a) "2010-05-a.md" ["travel"; "legacy-blogger"]
    = Ok fm
    /\ Yaml.dumped_keys fm
       = ["date"; "description"; "published"; "slug"; "tags"; "time_to_read";
          "title"]
    /\ Yaml.dumped_keys fm <> Spec.model_key_order
    /\ Yaml.dump Sample.plain fm
       = join [ "date: 2010-05-01T08:00:00Z" ++ nl;
                "description: " ++ nl;
                "published: true" ++ nl;
                "slug: 2010-05-a" ++ nl;
                "tags:" ++ nl;
                "- travel" ++ nl;
                "- legacy-blogger" ++ nl;
                "time_to_read: 5" ++ nl;
                "title: A" ++ nl ].
Proof.
  eexists. split; [reflexivity|].
  split; [reflexivity|]. split; [discriminate|reflexivity].
Qed.

(** C3, amended: the front matter of a post is built with its keys in the
    order of the data model (date, published, slug, tags, time_to_read,
    title, description), and [yaml.dump] writes the block with the keys
    sorted: date, description, published, slug, tags, time_to_read, title. *)
Theorem C3_front_matter_keys_dumped_sorted
  (value : Obj) (filename date t : string) (tl : list string)
  (Hdate : published (snd value) = Some date)
  (Htitle : title (snd value) = Some t) :
  exists fm : Yaml.mapping,
    frontmatter value filename tl = Ok fm
    /\ map fst fm = Spec.model_key_order
    /\ Yaml.dumped_keys fm
       = ["date"; "description"; "published"; "slug"; "tags"; "time_to_read";
          "title"]
    /\ Yaml.dump write_scalar fm
       = join [ "date: " ++ write_scalar 6 date ++ nl;
                "description: " ++ write_scalar 13 "" ++ nl;
                "published: true" ++ nl;
                "slug: " ++ write_scalar 6 (replace ".md" "" filename) ++ nl;
                Yaml.dump_item write_scalar ("tags", Yaml.YSeq tl);
                "time_to_read: 5" ++ nl;
                "title: " ++ write_scalar 7 t ++ nl ].
Proof.
  unfold frontmatter. rewrite Hdate, Htitle. cbn [getitem bind].
  eexists. split; [reflexivity|].
  split; [reflexivity|]. split; reflexivity.
Qed.

Lemma write_comments_rows (cs : list Obj) (rows : list (string * string * string)) :
  map Spec.comment_fields cs = map Some rows ->
  write_comments cs = (join (map Spec.render_comment rows), None).
Proof.
  revert rows; induction cs as [|c cs IH]; intros [|[[a p] b] rows] H;
    try discriminate; [reflexivity|].
  cbn [map] in H. injection H as Hc Hrest.
  cbn [write_comments]. unfold Spec.comment_fields in Hc. unfold comment_header.
  destruct (author_detail (snd c)) as [[[n|]]|]; try discriminate.
  destruct (published (snd c)) as [p'|]; try discriminate.
  destruct (summary (snd c)) as [b'|]; try discriminate.
  injection Hc as -> -> ->.
  cbn [getitem bind name]. rewrite (IH rows Hrest).
  cbn [map join fold_right Spec.render_comment].
  now rewrite !app_assoc_str.
Qed.

(** C8: what is written after the body of a post is empty exactly when the
    post has no comment; with comments it is the rule and heading followed,
    for each comment in the order of attachment, by the header
    [**author said on date**] with the first 10 characters of the time
    stamp, a blank line, the body of the comment as it is and a blank line.
    For Alice's and Bob's comments the headers are
    [**Alice said on 2011-01-02**] and [**Bob said on 2011-03-04**]. *)
Theorem C8_comments_block_rendering
  (key : string) (cs : list Obj) (rows : list (string * string * string))
  (Hrows : map Spec.comment_fields cs = map Some rows) :
  write_comments_block key cs = (Spec.comments_block key rows, None)
  /\ (Spec.comments_block key rows = "" <-> cs = [])
  /\ (forall cs' : list Obj, fst (write_comments_block key cs') = "" <-> cs' = [])
  /\ (forall (fm : Yaml.mapping) (value : Post) (body : string),
        p_comments value = cs ->
        summary (snd (p_entry value)) = Some body ->
        write_document write_scalar args fm key value
        = (("---" ++ nl ++ Yaml.dump write_scalar fm ++ "---" ++ nl ++ nl
              ++ (if show_original args then original_note key else ""))
             ++ body ++ Spec.comments_block key rows, None))
  /\ write_comments_block "k" [(1, Sample.alice); (2, Sample.bob)]
     = (comments_heading 2 "k"
          ++ "**Alice said on 2011-01-02**" ++ nl ++ nl ++ "first" ++ nl ++ nl
          ++ "**Bob said on 2011-03-04**" ++ nl ++ nl ++ "second" ++ nl ++ nl,
        None).
Proof.
  assert (Hb : write_comments_block key cs = (Spec.comments_block key rows, None)).
  { destruct cs as [|c cs], rows as [|r rows]; try discriminate; [reflexivity|].
    unfold write_comments_block. rewrite (write_comments_rows _ _ Hrows).
    cbn [Spec.comments_block]. apply (f_equal (@List.length _)) in Hrows.
    rewrite !length_map in Hrows. now rewrite Hrows. }
  split; [exact Hb|]. split.
  - destruct cs as [|c cs], rows as [|r rows]; try discriminate.
    + split; reflexivity.
    + split; discriminate.
  - split; [|split; [|reflexivity]].
    { intros [|c cs']; [split; reflexivity|].
      cbn [write_comments_block]. destruct (write_comments (c :: cs')).
      split; discriminate. }
    intros fm value body Hcs Hbody. unfold write_document.
    rewrite Hbody, Hcs, Hb. reflexivity.
Qed.

End Documents.

Lemma C7_blank_or_page_name_writes_nothing_witness :
  Main.write_post Sample.plain Sample.args (Some "http://e/")
    "http://e/p-contact.html" Sample.post_a = (None, None).
Proof.
  exact (proj1 (C7_blank_or_page_name_writes_nothing Sample.plain Sample.args
                  (Some "http://e/") "http://e/p-contact.html" "p-contact.md"
                  Sample.post_a eq_refl (or_intror eq_refl))).
Defined.

Lemma C3_front_matter_keys_dumped_sorted_witness :
  exists fm : Yaml.mapping,
    Main.frontmatter (0, Sample.entry_a) "2010-05-a.md" ["travel"] = Ok fm
    /\ map fst fm = Spec.model_key_order
    /\ Yaml.dumped_keys fm
       = ["date"; "description"; "published"; "slug"; "tags"; "time_to_read";
          "title"].
Proof.
  destruct (C3_front_matter_keys_dumped_sorted Sample.plain (0, Sample.entry_a)
              "2010-05-a.md" "2010-05-01T08:00:00Z" "A" ["travel"]
              eq_refl eq_refl) as (fm & H1 & H2 & H3 & _).
  exists fm. split; [exact H1|]. split; [exact H2|exact H3].
Defined.

Lemma C8_comments_block_rendering_witness :
  Main.write_comments_block "http://e/2010/05/a.html"
    [(1, Sample.alice); (2, Sample.bob)]
  = (Spec.comments_block "http://e/2010/05/a.html"
       [("Alice", "2011-01-02T10:00:00Z", "first");
        ("Bob", "2011-03-04T09:00:00Z", "second")], None).
Proof.
  exact (proj1 (C8_comments_block_rendering Sample.plain Sample.args
                  "http://e/2010/05/a.html"
                  [(1, Sample.alice); (2, Sample.bob)]
                  [("Alice", "2011-01-02T10:00:00Z", "first");
                   ("Bob", "2011-03-04T09:00:00Z", "second")] eq_refl)).
Defined.

(** ** Classification: lines 60-80 *)

Section Classification.
Import PyStr Feed Main.

(** C2, the claim as stated, fails: a post whose second category term is the
    label [#commentary] has a term that contains [#comment], so the rules on
    every term make it a comment; the first loop looks at the first term
    only and files it as a post. *)
Lemma C2_label_with_comment_marker_is_a_post :
  let entry : Obj :=
    (0, {| link := Some "http://e/2010/05/b.html";
           href := Some "http://e/feeds/4";
           tags := Some [ {| term := kind_post |}; {| term := "#commentary" |} ];
           title := Some "B";
           published := Some "2010-05-02T08:00:00Z";
           summary := Some "<p>b</p>";
           thr_in_reply_to := None;
           author_detail := None |}) in
  Spec.classify_any "http://e/2010/05/b.html" "http://e/feeds/4"
    [kind_post; "#commentary"] = Spec.Comment
  /\ classify_body [] [] entry
     = Ok ([("http://e/2010/05/b.html", {| p_entry := entry; p_comments := [] |})],
           [])
  /\ classify_body [] [] entry
     <> Ok (Spec.file_entry Spec.Comment entry "http://e/2010/05/b.html" [] []).
Proof. split; [reflexivity|split; [reflexivity|discriminate]]. Qed.

(** C2, amended: on an entry with a link the five rules apply in order and
    the first match wins, the two category rules reading the entry's
    category, which is its first category term: the entry is dropped if its
    link contains [tag:blogger.com]; else, having [href], dropped if [href]
    contains [comments]; else, having a category, dropped if that term
    contains [#settings], filed as a comment if it contains [#comment], and
    filed as a post otherwise.  For an entry with a single category term
    these are the rules on every term. *)
Theorem C2_rules_in_order_on_first_term
  (ps : Posts) (cs : list Obj) (entry : Obj) (l : string)
  (Hlink : link (snd entry) = Some l) :
  (contains "tag:blogger.com" l = true -> classify_body ps cs entry = Ok (ps, cs))
  /\ (forall h : string,
        href (snd entry) = Some h ->
        contains "tag:blogger.com" l = false ->
        contains "comments" h = true ->
        classify_body ps cs entry = Ok (ps, cs))
  /\ (forall (h : string) (t : Tag) (ts : list Tag),
        href (snd entry) = Some h ->
        tags (snd entry) = Some (t :: ts) ->
        classify_body ps cs entry
        = Ok (Spec.file_entry (Spec.classify_first l h (term t)) entry l ps cs))
  /\ (forall h c : string,
        Spec.classify_first l h c = Spec.classify_any l h [c]).
Proof.
  unfold classify_body. rewrite Hlink. cbn [getattr bind].
  split; [now intros ->|]. split.
  - intros h Hh -> Hc. rewrite Hh. cbn [getitem bind]. now rewrite Hc.
  - split.
    + intros h t ts Hh Ht. unfold Spec.classify_first, category.
      rewrite Hh, Ht. cbn [getitem bind].
      destruct (contains "tag:blogger.com" l); [reflexivity|].
      destruct (contains "comments" h); [reflexivity|].
      destruct (contains "#settings" (term t)); [reflexivity|].
      destruct (contains "#comment" (term t)); reflexivity.
    + intros h c. unfold Spec.classify_first, Spec.classify_any.
      cbn [existsb]. now rewrite !orb_false_r.
Qed.

Lemma C2_rules_in_order_on_first_term_witness :
  classify_body [] [] (0, Sample.alice) = Ok ([], [(0, Sample.alice)]).
Proof.
  exact (proj1 (proj2 (proj2
           (C2_rules_in_order_on_first_term [] [] (0, Sample.alice)
              "http://e/2010/05/a.html?showComment=1" eq_refl)))
           "http://e/feeds/2" {| term := Sample.kind_comment |} []
           eq_refl eq_refl).
Defined.

Lemma classify_loop_app (es1 es2 : list Obj) (st : State) :
  classify_loop (es1 ++ es2) st
  = match classify_loop es1 st with
    | (st', None) => classify_loop es2 st'
    | (st', Some e) => (st', Some e)
    end.
Proof.
  revert st; induction es1 as [|entry es1 IH]; intros st; [reflexivity|].
  cbn [app classify_loop].
  destruct (classify_body (posts st) (comments st) entry) as [[p c]|[k|n]];
    [apply IH|apply IH|reflexivity].
Qed.

(** The printed lines have no influence on the two collections. *)
Lemma classify_loop_stdout (es : list Obj) (st st' : State) :
  posts st = posts st' -> comments st = comments st' ->
  posts (fst (classify_loop es st)) = posts (fst (classify_loop es st'))
  /\ comments (fst (classify_loop es st)) = comments (fst (classify_loop es st'))
  /\ snd (classify_loop es st) = snd (classify_loop es st').
Proof.
  revert st st'; induction es as [|entry es IH]; intros st st' Hp Hc.
  - cbn. auto.
  - cbn [classify_loop]. rewrite <- Hp, <- Hc.
    destruct (classify_body (posts st) (comments st) entry) as [[p c]|[k|n]].
    + now apply IH.
    + now apply IH.
    + cbn. auto.
Qed.

Lemma classify_body_key_error (ps : Posts) (cs : list Obj) (entry : Obj) (k : string) :
  classify_body ps cs entry = Raise (KeyError k) ->
  k = "href" /\ href (snd entry) = None.
Proof.
  unfold classify_body, category.
  destruct (link (snd entry)) as [l|]; cbn [getattr bind]; [|discriminate].
  destruct (contains "tag:blogger.com" l); [discriminate|].
  destruct (href (snd entry)) as [h|]; cbn [getitem bind].
  - destruct (contains "comments" h); [discriminate|].
    destruct (tags (snd entry)) as [[|t ts]|]; cbn [bind]; try discriminate.
    destruct (contains "#settings" (term t)); [discriminate|].
    destruct (contains "#comment" (term t)); discriminate.
  - intros H. injection H as <-. auto.
Qed.

(** C4, the claim as stated, fails: one comment entry without its
    [thr:in-reply-to] element ends the run in the second loop with a
    [KeyError], and one post entry without a title ends it in the third;
    in both runs the well-formed post of the feed, which is written when it
    is alone, is not written. *)
Lemma C4_one_malformed_entry_ends_the_run :
  main Sample.plain Sample.args (Sample.feed [Sample.entry_a; Sample.no_target])
  = {| printed := []; files := []; raised := Some (KeyError "thr_in-reply-to") |}
  /\ main Sample.plain Sample.args (Sample.feed [Sample.untitled; Sample.entry_a])
     = {| printed := []; files := []; raised := Some (KeyError "title") |}
  /\ (exists text : string,
        main Sample.plain Sample.args (Sample.feed [Sample.entry_a])
        = {| printed := []; files := [("2010-05-a.md", text)]; raised := None |}).
Proof.
  split; [reflexivity|]. split; [reflexivity|].
  eexists. reflexivity.
Qed.

(** C4, amended: when a subscript lookup fails while an entry is classified
    (the entry has no key [href]), the error is printed, only that entry is
    skipped and the first loop goes on with all the remaining entries: the
    posts and comments it collects, and whether and how it ends, are those
    of the feed without that entry. *)
Theorem C4_key_error_in_classification_skips_entry
  (entry : Obj) (k : string) (st : State)
  (Herr : classify_body (posts st) (comments st) entry = Raise (KeyError k)) :
  (k = "href" /\ href (snd entry) = None)
  /\ (forall es : list Obj,
        classify_loop (entry :: es) st
        = classify_loop es (Spec.with_line st (error_line k)))
  /\ (forall es : list Obj,
        posts (fst (classify_loop (entry :: es) st))
        = posts (fst (classify_loop es st))
        /\ comments (fst (classify_loop (entry :: es) st))
           = comments (fst (classify_loop es st))
        /\ snd (classify_loop (entry :: es) st) = snd (classify_loop es st)).
Proof.
  assert (Hstep : forall es, classify_loop (entry :: es) st
                             = classify_loop es (Spec.with_line st (error_line k))).
  { intros es. cbn [classify_loop]. now rewrite Herr. }
  split; [exact (classify_body_key_error _ _ _ _ Herr)|].
  split; [exact Hstep|].
  intros es. rewrite Hstep. now apply classify_loop_stdout.
Qed.

End Classification.

Lemma C4_key_error_in_classification_skips_entry_witness :
  Main.classify_loop [(0, Sample.no_href); (1, Sample.entry_a)] Spec.start
  = Main.classify_loop [(1, Sample.entry_a)]
      (Spec.with_line Spec.start "Error: 'href'").
Proof.
  exact (proj1 (proj2 (C4_key_error_in_classification_skips_entry
                         (0, Sample.no_href) "href" Spec.start eq_refl))
           [(1, Sample.entry_a)]).
Defined.

(** ** Attaching comments: lines 82-88 *)

Section Correlation.
Import PyStr Feed Main.


Lemma dict_get_None {V : Type} (k : string) (d : Dict.t V) :
  Dict.get k d = None -> ~ In k (map fst d).
Proof.
  induction d as [|[k' v'] d IH]; cbn [Dict.get map fst]; [tauto|].
  destruct (String.eqb k k') eqn:E; [discriminate|].
  apply String.eqb_neq in E. intros H [Hk|Hk]; [congruence|now apply IH].
Qed.

Lemma dict_set_In {V : Type} (k : string) (v : V) (d : Dict.t V) (kv : string * V) :
  In kv (Dict.set k v d) -> kv = (k, v) \/ In kv d.
Proof.
  induction d as [|[k' v'] d IH]; cbn [Dict.set].
  - intros [<- | []]. now left.
  - destruct (String.eqb k k').
    + intros [<- | H]; [now left|right; now right].
    + intros [<- | H]; [right; now left|].
      destruct (IH H); [now left|right; now right].
Qed.

Lemma dict_set_keys {V : Type} (k : string) (v v' : V) (d : Dict.t V) :
  Dict.get k d = Some v -> map fst (Dict.set k v' d) = map fst d.
Proof.
  induction d as [|[k0 v0] d IH]; cbn [Dict.get Dict.set]; [discriminate|].
  destruct (String.eqb k k0) eqn:E.
  - apply String.eqb_eq in E. subst. reflexivity.
  - intros H. cbn [map fst]. now rewrite IH.
Qed.

Lemma dict_set_NoDup {V : Type} (k : string) (v : V) (d : Dict.t V) :
  NoDup (map fst d) -> NoDup (map fst (Dict.set k v d)).
Proof.
  induction d as [|[k0 v0] d IH]; cbn [Dict.set map fst]; intros H.
  - constructor; [tauto|constructor].
  - destruct (String.eqb k k0) eqn:E.
    + apply String.eqb_eq in E. now subst.
    + apply String.eqb_neq in E. inversion H as [|? ? Hn Hd]; subst.
      cbn [map fst]. constructor; [|now apply IH].
      intros Hin. apply in_map_iff in Hin as [[k1 v1] [Hk Hin]].
      cbn in Hk. subst k1.
      destruct (dict_set_In _ _ _ _ Hin) as [[= <- <-]|Hin']; [congruence|].
      apply Hn. apply in_map_iff. now exists (k0, v1).
Qed.




Lemma objects_ids (es : list Entry) : NoDup (map fst (objects es)).
Proof.
  unfold objects. generalize 0 as s.
  assert (H : forall s, map fst (combine (seq s (List.length es)) es)
                        = seq s (List.length es)).
  { induction es as [|e es IH]; intros s; [reflexivity|].
    cbn [List.length seq combine map fst]. now rewrite IH. }
  intros s. rewrite H. apply seq_NoDup.
Qed.

Lemma classify_body_cases (ps : Posts) (cs : list Obj) (entry : Obj)
  (ps' : Posts) (cs' : list Obj) :
  classify_body ps cs entry = Ok (ps', cs') ->
  (ps' = ps /\ cs' = cs)
  \/ (ps' = ps /\ cs' = (cs ++ [entry])%list)
  \/ (exists l, link (snd entry) = Some l
                /\ ps' = Dict.set l {| p_entry := entry; p_comments := [] |} ps
                /\ cs' = cs).
Proof.
  unfold classify_body, category.
  destruct (link (snd entry)) as [l|]; cbn [getattr bind]; [|discriminate].
  destruct (contains "tag:blogger.com" l); [intros [= <- <-]; auto|].
  destruct (href (snd entry)) as [h|]; cbn [getitem bind]; [|discriminate].
  destruct (contains "comments" h); [intros [= <- <-]; auto|].
  destruct (tags (snd entry)) as [[|t ts]|]; cbn [bind]; try discriminate.
  destruct (contains "#settings" (term t)); [intros [= <- <-]; auto|].
  destruct (contains "#comment" (term t)); intros [= <- <-]; [auto|].
  right. right. exists l. auto.
Qed.









End Correlation.


(** ** The whole run on the sample feed *)

(** The site root [http://example.com/] and the link
    [http://example.com/2010/05/my-post.html] give the file name
    [2010-05-my-post.md]. *)
Example derive_filename_my_post :
  Main.derive_filename (Some "http://example.com/")
    "http://example.com/2010/05/my-post.html"
  = Ok (Some "2010-05-my-post.md").
Proof. reflexivity. Qed.

(** A post, two comments on it and a comment on a link that is no post: one
    warning, one file, the two comments in feed order. *)
Example main_on_sample_feed :
  Main.main Sample.plain Sample.args
    (Sample.feed [Sample.alice; Sample.entry_a; Sample.stray; Sample.bob])
  = {| Main.printed := ["Warning: Comment 'lost' has no corresponding post!"];
       Main.files :=
         [("2010-05-a.md",
           PyStr.join
             [ "---" ++ nl;
               "date: 2010-05-01T08:00:00Z" ++ nl;
               "description: " ++ nl;
               "published: true" ++ nl;
               "slug: 2010-05-a" ++ nl;
               "tags:" ++ nl;
               "- travel" ++ nl;
               "- legacy-blogger" ++ nl;
               "time_to_read: 5" ++ nl;
               "title: A" ++ nl;
               "---" ++ nl ++ nl;
               "*This was originally posted on blogger "
                 ++ "[here](http://e/2010/05/a.html)*." ++ nl ++ nl;
               "<p>a</p>";
               nl ++ nl ++ "---" ++ nl ++ nl;
               "## 2 comments captured from [original post]"
                 ++ "(http://e/2010/05/a.html) on Blogger" ++ nl ++ nl;
               "**Alice said on 2011-01-02**" ++ nl ++ nl;
               "first" ++ nl ++ nl;
               "**Bob said on 2011-03-04**" ++ nl ++ nl;
               "second" ++ nl ++ nl ])];
       Main.raised := None |}.
Proof. reflexivity. Qed.

(** * Further properties of [main] *)

(** ** The first loop: what it stores, what it raises *)

Section ClassificationMore.
Import PyStr Feed Main.

Lemma dict_get_set_same {V : Type} (k : string) (v : V) (d : Dict.t V) :
  Dict.get k (Dict.set k v d) = Some v.
Proof.
  induction d as [|[k0 v0] d IH]; cbn [Dict.set Dict.get].
  - now rewrite String.eqb_refl.
  - destruct (String.eqb k k0) eqn:E; cbn [Dict.get].
    + now rewrite String.eqb_refl.
    + now rewrite E.
Qed.

Lemma dict_get_set_other {V : Type} (k k' : string) (v : V) (d : Dict.t V) :
  k' <> k -> Dict.get k' (Dict.set k v d) = Dict.get k' d.
Proof.
  intros Hne; induction d as [|[k0 v0] d IH]; cbn [Dict.set Dict.get].
  - apply String.eqb_neq in Hne. now rewrite Hne.
  - destruct (String.eqb k k0) eqn:E; cbn [Dict.get].
    + apply String.eqb_eq in E. subst k0.
      apply String.eqb_neq in Hne. now rewrite Hne.
    + now rewrite IH.
Qed.

Lemma dict_set_new_key {V : Type} (k : string) (v : V) (d : Dict.t V) :
  Dict.get k d = None -> Dict.set k v d = (d ++ [(k, v)])%list.
Proof.
  induction d as [|[k0 v0] d IH]; cbn [Dict.set Dict.get app]; [reflexivity|].
  destruct (String.eqb k k0); [discriminate|].
  intros H. now rewrite IH.
Qed.

Lemma dict_set_length {V : Type} (k : string) (v : V) (d : Dict.t V) :
  List.length (Dict.set k v d)
  = if Dict.mem k d then List.length d else S (List.length d).
Proof.
  unfold Dict.mem.
  induction d as [|[k0 v0] d IH]; cbn [Dict.set Dict.get]; [reflexivity|].
  destruct (String.eqb k k0); [reflexivity|].
  cbn [List.length]. rewrite IH. now destruct (Dict.get k d).
Qed.

Lemma classify_body_post (ps : Posts) (cs : list Obj) (entry : Obj)
  (l h : string) (t : Tag) (ts : list Tag) :
  link (snd entry) = Some l ->
  href (snd entry) = Some h ->
  tags (snd entry) = Some (t :: ts) ->
  Spec.classify_first l h (term t) = Spec.Post ->
  classify_body ps cs entry
  = Ok (Dict.set l {| p_entry := entry; p_comments := [] |} ps, cs).
Proof.
  intros Hl Hh Ht. unfold Spec.classify_first, classify_body, category.
  rewrite Hl, Hh, Ht. cbn [getattr getitem bind].
  destruct (contains "tag:blogger.com" l); [discriminate|].
  destruct (contains "comments" h); [discriminate|].
  destruct (contains "#settings" (term t)); [discriminate|].
  destruct (contains "#comment" (term t)); [discriminate|reflexivity].
Qed.

(** X1: a post entry replaces an earlier post that has the same link: after the
    entry is filed, its link is the key of this entry with an empty list of
    comments, every other key is bound as before, and the keys come in the
    order they had, the link added last if it is new. *)
Theorem post_entry_replaces_post_of_same_link
  (ps : Posts) (cs : list Obj) (entry : Obj)
  (l h : string) (t : Tag) (ts : list Tag)
  (Hlink : link (snd entry) = Some l)
  (Hhref : href (snd entry) = Some h)
  (Htags : tags (snd entry) = Some (t :: ts))
  (Hpost : Spec.classify_first l h (term t) = Spec.Post) :
  exists ps' : Posts,
    classify_body ps cs entry = Ok (ps', cs)
    /\ Dict.get l ps' = Some {| p_entry := entry; p_comments := [] |}
    /\ (forall k : string, k <> l -> Dict.get k ps' = Dict.get k ps)
    /\ map fst ps' = (if Dict.mem l ps then map fst ps else map fst ps ++ [l])%list
    /\ List.length ps'
       = (if Dict.mem l ps then List.length ps else S (List.length ps)).
Proof.
  eexists. split; [now apply (classify_body_post ps cs entry l h t ts)|].
  split; [apply dict_get_set_same|].
  split; [intros k Hk; now apply dict_get_set_other|].
  split; [|apply dict_set_length].
  unfold Dict.mem. destruct (Dict.get l ps) as [p|] eqn:Hg.
  - now apply dict_set_keys with (v := p).
  - rewrite dict_set_new_key by exact Hg. now rewrite map_app.
Qed.

(** X2: the first loop never lets a [KeyError] out.  When it raises, it has
    stopped at the first entry on which its body raises another exception:
    the entries before that one are processed as if the feed ended there,
    the state is the one reached after them, and the exception is the one
    the body raises on that entry in that state; on an entry without a link
    it is the [AttributeError] of [entry.link]. *)
Theorem classification_stops_where_it_raises
  (es : list Obj) (st st' : State) (e : exn)
  (Hraise : classify_loop es st = (st', Some e)) :
  (forall k : string, e <> KeyError k)
  /\ exists (before : list Obj) (entry : Obj) (after : list Obj),
       es = (before ++ entry :: after)%list
       /\ classify_loop before st = (st', None)
       /\ classify_body (posts st') (comments st') entry = Raise e
       /\ (link (snd entry) = None -> e = AttributeError "link").
Proof.
  revert st Hraise; induction es as [|entry es IH]; intros st Hraise;
    [discriminate|].
  cbn [classify_loop] in Hraise.
  destruct (classify_body (posts st) (comments st) entry) as [[p c]|x] eqn:Hb.
  - destruct (IH _ Hraise) as (Hk & before & bad & after & -> & Hloop & Hbad).
    split; [exact Hk|].
    exists (entry :: before), bad, after. split; [reflexivity|].
    split; [|exact Hbad]. cbn [classify_loop]. now rewrite Hb.
  - destruct x as [k|n].
    + destruct (IH _ Hraise) as (Hk & before & bad & after & -> & Hloop & Hbad).
      split; [exact Hk|].
      exists (entry :: before), bad, after. split; [reflexivity|].
      split; [|exact Hbad]. cbn [classify_loop]. now rewrite Hb.
    + injection Hraise as <- <-. split; [discriminate|].
      exists [], entry, es. split; [reflexivity|]. split; [reflexivity|].
      split; [exact Hb|].
      intros Hn. unfold classify_body in Hb. rewrite Hn in Hb.
      cbn [getattr bind] in Hb. now injection Hb as <-.
Qed.

End ClassificationMore.

Lemma post_entry_replaces_post_of_same_link_witness :
  exists ps' : Posts,
    Main.classify_body
      [("http://e/2010/05/a.html",
        {| p_entry := (0, Sample.untitled); p_comments := [] |})]
      [] (1, Sample.entry_a) = Ok (ps', [])
    /\ Dict.get "http://e/2010/05/a.html" ps'
       = Some {| p_entry := (1, Sample.entry_a); p_comments := [] |}
    /\ List.length ps' = 1.
Proof.
  destruct (post_entry_replaces_post_of_same_link
              [("http://e/2010/05/a.html",
                {| p_entry := (0, Sample.untitled); p_comments := [] |})]
              [] (1, Sample.entry_a) "http://e/2010/05/a.html"
              "http://e/feeds/1" {| Feed.term := Main.kind_post |}
              [ {| Feed.term := "travel" |} ]
              eq_refl eq_refl eq_refl eq_refl)
    as (ps' & H1 & H2 & _ & _ & H5).
  exists ps'. split; [exact H1|]. split; [exact H2|exact H5].
Defined.

Lemma classification_stops_where_it_raises_witness :
  exists (before : list Obj) (entry : Obj) (after : list Obj),
    [(0, Sample.entry_a); (1, Sample.settings); (2, Sample.no_category);
     (3, Sample.alice)]
    = (before ++ entry :: after)%list
    /\ Main.classify_body
         [("http://e/2010/05/a.html",
           {| p_entry := (0, Sample.entry_a); p_comments := [] |})]
         [] entry
       = Raise (AttributeError "category").
Proof.
  destruct (proj2 (classification_stops_where_it_raises
                     [(0, Sample.entry_a); (1, Sample.settings);
                      (2, Sample.no_category); (3, Sample.alice)]
                     Spec.start
                     {| Main.posts :=
                          [("http://e/2010/05/a.html",
                            {| p_entry := (0, Sample.entry_a);
                               p_comments := [] |})];
                        Main.comments := []; Main.stdout := [] |}
                     (AttributeError "category") eq_refl))
    as (before & entry & after & H1 & _ & H3 & _).
  exists before, entry, after. split; [exact H1|exact H3].
Defined.

Section ClassificationShares.
Import PyStr Feed Main.

Lemma Subseq_refl_nil {A : Type} (l : list A) : Run.Subseq [] l.
Proof. induction l; constructor; assumption. Qed.

Lemma Subseq_app {A : Type} (l1 l2 l3 l4 : list A) :
  Run.Subseq l1 l2 -> Run.Subseq l3 l4 -> Run.Subseq (l1 ++ l3) (l2 ++ l4).
Proof.
  intros H H'; induction H as [|y l1 l2 _ IH|y l1 l2 _ IH]; cbn [app];
    [exact H'|now constructor|now constructor].
Qed.

Lemma Subseq_length {A : Type} (l1 l2 : list A) :
  Run.Subseq l1 l2 -> List.length l1 <= List.length l2.
Proof. induction 1; cbn [List.length]; lia. Qed.

Lemma post_entries_set (k : string) (v : Post) (d : Posts) :
  (Run.post_entries (Dict.set k v d) = Run.post_entries d ++ [p_entry v])%list
  \/ exists (y : Obj) (d1 d2 : list Obj),
       Run.post_entries d = (d1 ++ y :: d2)%list
       /\ Run.post_entries (Dict.set k v d) = (d1 ++ p_entry v :: d2)%list.
Proof.
  unfold Run.post_entries.
  induction d as [|[k0 v0] d IH]; cbn [Dict.set map app]; [now left|].
  destruct (String.eqb k k0).
  - right. exists (p_entry v0), [], (map (fun kv => p_entry (snd kv)) d).
    split; reflexivity.
  - cbn [map snd]. destruct IH as [-> | (y & d1 & d2 & E1 & E2)]; [now left|].
    right. exists y, (p_entry v0 :: d1), d2. rewrite E1, E2. split; reflexivity.
Qed.

Lemma perm_head {A : Type} (P C es : list A) (e : A) :
  Permutation (P ++ C ++ e :: es) (e :: P ++ C ++ es).
Proof.
  rewrite !app_assoc. symmetry. apply Permutation_middle.
Qed.

Lemma apart_next (st st1 : State) (entry : Obj) (es : list Obj) :
  Run.apart st (entry :: es) ->
  posts st1 = posts st -> comments st1 = comments st ->
  Run.apart st1 es.
Proof.
  unfold Run.apart. intros H -> ->.
  apply (Permutation_NoDup (Permutation_map fst (perm_head _ _ _ _))) in H.
  cbn [map] in H. now inversion H.
Qed.

Lemma apart_comment (st st1 : State) (entry : Obj) (es : list Obj) :
  Run.apart st (entry :: es) ->
  posts st1 = posts st -> comments st1 = (comments st ++ [entry])%list ->
  Run.apart st1 es.
Proof.
  unfold Run.apart. intros H -> ->.
  rewrite <- app_assoc. exact H.
Qed.

Lemma apart_post (st st1 : State) (entry : Obj) (es : list Obj) (l : string) :
  Run.apart st (entry :: es) ->
  posts st1 = Dict.set l {| p_entry := entry; p_comments := [] |} (posts st) ->
  comments st1 = comments st ->
  Run.apart st1 es.
Proof.
  unfold Run.apart. intros H -> ->.
  apply (Permutation_NoDup (Permutation_map fst (perm_head _ _ _ _))) in H.
  destruct (post_entries_set l {| p_entry := entry; p_comments := [] |} (posts st))
    as [-> | (y & d1 & d2 & E1 & ->)]; cbn [p_entry] in *.
  - revert H. apply Permutation_NoDup, Permutation_map.
    rewrite <- app_assoc. cbn [app].
    rewrite <- Permutation_middle. reflexivity.
  - rewrite E1 in H.
    assert (HP : Permutation (entry :: (d1 ++ y :: d2) ++ comments st ++ es)
                             (y :: (d1 ++ entry :: d2) ++ comments st ++ es)).
    { rewrite <- !app_assoc. cbn [app].
      rewrite <- !Permutation_middle. apply perm_swap. }
    apply (Permutation_NoDup (Permutation_map fst HP)) in H.
    cbn [map] in H. now inversion H.
Qed.

Lemma post_entries_set_incl (k : string) (v : Post) (d : Posts) (x : Obj) :
  In x (Run.post_entries (Dict.set k v d)) ->
  x = p_entry v \/ In x (Run.post_entries d).
Proof.
  unfold Run.post_entries. rewrite !in_map_iff.
  intros (kv & <- & Hin).
  destruct (dict_set_In _ _ _ _ Hin) as [-> | H]; [now left|].
  right. now exists kv.
Qed.

Lemma objects_length (es : list Entry) : List.length (objects es) = List.length es.
Proof.
  pose proof (length_combine (seq 0 (List.length es)) es) as E.
  rewrite length_seq, Nat.min_id in E. exact E.
Qed.

(** One pass of the first loop over [es]: what it adds to the state. *)
Lemma classify_loop_shares (es : list Obj) (st st' : State) (r : option exn) :
  classify_loop es st = (st', r) ->
  Run.apart st es ->
  (exists cs' : list Obj,
      comments st' = (comments st ++ cs')%list /\ Run.Subseq cs' es)
  /\ incl (Run.post_entries (posts st')) (Run.post_entries (posts st) ++ es)
  /\ Run.apart st' []
  /\ Run.tally st' <= Run.tally st + List.length es.
Proof.
  revert st; induction es as [|entry es IH]; intros st Hloop Hap.
  - cbn in Hloop. injection Hloop as <- _.
    split; [exists []; rewrite app_nil_r; split; [reflexivity|constructor]|].
    split; [now apply incl_appl|]. split; [exact Hap|cbn; lia].
  - cbn [classify_loop] in Hloop.
    destruct (classify_body (posts st) (comments st) entry) as [[p c]|x] eqn:Hb.
    + destruct (classify_body_cases _ _ _ _ _ Hb)
        as [[-> ->]|[[-> ->]|(l & Hlink & -> & ->)]].
      * destruct (IH _ Hloop) as ((cs' & Hc & Hs) & Hi & Ha & Ht);
          [now apply (apart_next st _ entry)|].
        cbn [posts comments stdout] in *. unfold Run.tally in *.
        cbn [posts comments stdout List.length] in *.
        split; [exists cs'; split; [exact Hc|now constructor]|].
        split; [|split; [exact Ha|lia]].
        intros y Hy. apply Hi in Hy. rewrite in_app_iff in *. cbn [In]. tauto.
      * destruct (IH _ Hloop) as ((cs' & Hc & Hs) & Hi & Ha & Ht);
          [now apply (apart_comment st _ entry)|].
        cbn [posts comments stdout] in *. unfold Run.tally in *.
        cbn [posts comments stdout List.length] in *.
        rewrite length_app in Ht. cbn [List.length] in Ht.
        split; [exists (entry :: cs'); split;
                [rewrite Hc, <- app_assoc; reflexivity|now constructor]|].
        split; [|split; [exact Ha|lia]].
        intros y Hy. apply Hi in Hy. rewrite in_app_iff in *. cbn [In]. tauto.
      * destruct (IH _ Hloop) as ((cs' & Hc & Hs) & Hi & Ha & Ht);
          [now apply (apart_post st _ entry es l)|].
        cbn [posts comments stdout] in *. unfold Run.tally in *.
        cbn [posts comments stdout List.length] in *.
        rewrite dict_set_length in Ht.
        split; [exists cs'; split; [exact Hc|now constructor]|].
        split; [|split; [exact Ha|destruct (Dict.mem l (posts st)); lia]].
        intros y Hy. apply Hi in Hy. rewrite in_app_iff in *. cbn [In].
        destruct Hy as [Hy|Hy]; [|tauto].
        apply post_entries_set_incl in Hy. cbn [p_entry] in Hy.
        destruct Hy as [-> | Hy]; tauto.
    + destruct x as [k|n].
      * destruct (IH _ Hloop) as ((cs' & Hc & Hs) & Hi & Ha & Ht);
          [now apply (apart_next st _ entry)|].
        cbn [posts comments stdout] in *. unfold Run.tally in *.
        cbn [posts comments stdout List.length] in *.
        rewrite length_app in Ht. cbn [List.length] in Ht.
        split; [exists cs'; split; [exact Hc|now constructor]|].
        split; [|split; [exact Ha|lia]].
        intros y Hy. apply Hi in Hy. rewrite in_app_iff in *. cbn [In]. tauto.
      * injection Hloop as <- _.
        split; [exists []; rewrite app_nil_r; split;
                [reflexivity|apply Subseq_refl_nil]|].
        split; [now apply incl_appl|].
        split; [|unfold Run.tally; lia].
        apply (apart_next st st entry) in Hap; [|reflexivity|reflexivity].
        unfold Run.apart in *. rewrite !map_app in *.
        rewrite app_assoc in Hap. apply NoDup_app_remove_r in Hap.
        now rewrite app_nil_r.
Qed.

(** X3: whether the first loop ends normally or not, the comments it has
    collected are entries of the feed in feed order, the posts it holds are
    entries of the feed, no entry object is held twice or in both
    collections, and each entry accounts for at most one post, comment or
    printed line. *)
Theorem classification_shares_out_entries
  (es : list Entry) (st : State) (r : option exn)
  (Hloop : classify_loop (objects es) Spec.start = (st, r)) :
  Run.Subseq (comments st) (objects es)
  /\ incl (Run.post_entries (posts st)) (objects es)
  /\ NoDup (map fst (Run.post_entries (posts st) ++ comments st))
  /\ List.length (posts st) + List.length (comments st) + List.length (stdout st)
     <= List.length es.
Proof.
  destruct (classify_loop_shares _ _ _ _ Hloop)
    as ((cs' & Hc & Hs) & Hi & Ha & Ht).
  { unfold Run.apart. cbn [Spec.start posts comments Run.post_entries map app].
    apply objects_ids. }
  cbn [Spec.start posts comments Run.post_entries map app] in *.
  split; [now rewrite Hc|]. split; [exact Hi|].
  split.
  - unfold Run.apart in Ha. now rewrite app_nil_r in Ha.
  - unfold Run.tally in Ht. cbn [Spec.start posts comments stdout List.length] in Ht.
    rewrite objects_length in Ht. lia.
Qed.

End ClassificationShares.

Lemma classification_shares_out_entries_witness :
  Run.Subseq [(1, Sample.alice); (3, Sample.bob)]
             (Main.objects [Sample.entry_a; Sample.alice; Sample.no_href; Sample.bob]).
Proof.
  exact (proj1 (classification_shares_out_entries
                  [Sample.entry_a; Sample.alice; Sample.no_href; Sample.bob]
                  {| Main.posts :=
                       [("http://e/2010/05/a.html",
                         {| p_entry := (0, Sample.entry_a); p_comments := [] |})];
                     Main.comments := [(1, Sample.alice); (3, Sample.bob)];
                     Main.stdout := ["Error: 'href'"] |}
                  None eq_refl)).
Defined.

(** ** The second loop: order of attachment, what it keeps *)

Section CorrelationMore.
Import PyStr Feed Main.

Lemma targets_hit (t : string) (c : Obj) :
  reply_target c = Ok t -> Run.targets t c = true.
Proof. intros H. unfold Run.targets. now rewrite H, String.eqb_refl. Qed.

Lemma targets_miss (t k : string) (c : Obj) :
  reply_target c = Ok t -> k <> t -> Run.targets k c = false.
Proof.
  intros H Hne. unfold Run.targets. rewrite H.
  apply String.eqb_neq. congruence.
Qed.

Lemma attach_all_miss (t : string) (c : Obj) (cs : list Obj) (ps : Posts) :
  reply_target c = Ok t -> ~ In t (map fst ps) ->
  Run.attach_all (c :: cs) ps = Run.attach_all cs ps.
Proof.
  intros Ht Hn. unfold Run.attach_all. apply map_ext_in.
  intros [k p] Hin. cbn [fst snd filter].
  rewrite (targets_miss t k c Ht); [reflexivity|].
  intros ->. apply Hn. apply in_map_iff. now exists (t, p).
Qed.

Lemma attach_all_orphan (t : string) (c : Obj) (cs : list Obj) (ps : Posts) :
  reply_target c = Ok t -> Dict.get t ps = None ->
  Run.attach_all (c :: cs) ps = Run.attach_all cs ps.
Proof.
  intros Ht Hg. apply (attach_all_miss t); [exact Ht|].
  now apply dict_get_None.
Qed.

Lemma attach_all_hit (t : string) (p : Post) (c : Obj) (cs : list Obj) (ps : Posts) :
  NoDup (map fst ps) -> reply_target c = Ok t -> Dict.get t ps = Some p ->
  Run.attach_all cs (Dict.set t (append_comment p c) ps)
  = Run.attach_all (c :: cs) ps.
Proof.
  intros Hk Ht. induction ps as [|[k0 p0] ps IH]; cbn [Dict.get Dict.set];
    [discriminate|].
  cbn [map fst] in Hk. inversion Hk as [|? ? Hn Hk']; subst.
  destruct (String.eqb t k0) eqn:E.
  - intros [= ->]. apply String.eqb_eq in E. subst k0.
    change (Run.attach_all cs ((t, append_comment p c) :: ps))
      with ((t, {| p_entry := p_entry p;
                   p_comments := ((p_comments p ++ [c])
                                  ++ filter (Run.targets t) cs)%list |})
            :: Run.attach_all cs ps).
    change (Run.attach_all (c :: cs) ((t, p) :: ps))
      with ((t, {| p_entry := p_entry p;
                   p_comments := (p_comments p
                                  ++ filter (Run.targets t) (c :: cs))%list |})
            :: Run.attach_all (c :: cs) ps).
    cbn [filter]. rewrite (targets_hit t c Ht), <- app_assoc. cbn [app].
    f_equal. symmetry. now apply (attach_all_miss t).
  - intros Hg.
    change (Run.attach_all cs ((k0, p0) :: Dict.set t (append_comment p c) ps))
      with ((k0, {| p_entry := p_entry p0;
                    p_comments := (p_comments p0
                                   ++ filter (Run.targets k0) cs)%list |})
            :: Run.attach_all cs (Dict.set t (append_comment p c) ps)).
    change (Run.attach_all (c :: cs) ((k0, p0) :: ps))
      with ((k0, {| p_entry := p_entry p0;
                    p_comments := (p_comments p0
                                   ++ filter (Run.targets k0) (c :: cs))%list |})
            :: Run.attach_all (c :: cs) ps).
    cbn [filter]. rewrite (targets_miss t k0 c Ht).
    + f_equal. now apply IH.
    + apply String.eqb_neq in E. congruence.
Qed.

Lemma dict_mem_set (k t : string) (p v : Post) (ps : Posts) :
  Dict.get k ps = Some p -> Dict.mem t (Dict.set k v ps) = Dict.mem t ps.
Proof.
  intros Hg. unfold Dict.mem. destruct (String.eqb t k) eqn:E.
  - apply String.eqb_eq in E. subst t. now rewrite dict_get_set_same, Hg.
  - apply String.eqb_neq in E. now rewrite dict_get_set_other.
Qed.

(** X4: when the second loop ends normally on posts with distinct keys, every
    post has kept its key, its place and its entry, and has got, after the
    comments it had, the comments of the loop that name its key, in feed
    order; the lines printed are the warnings of the comments that name no
    key, in feed order. *)
Theorem attachment_follows_feed_order
  (cs : list Obj) (ps : Posts) (out : list string)
  (ps' : Posts) (out' : list string)
  (Hkeys : NoDup (map fst ps))
  (Hloop : attach_loop cs ps out = ((ps', out'), None)) :
  ps' = Run.attach_all cs ps
  /\ out' = (out ++ map Run.warning_for (filter (Run.orphan ps) cs))%list.
Proof.
  revert ps out Hkeys Hloop; induction cs as [|c cs IH]; intros ps out Hkeys Hloop.
  - cbn in Hloop. injection Hloop as <- <-. split.
    + unfold Run.attach_all. rewrite <- (map_id ps) at 1. apply map_ext.
      intros [k [e l]]. cbn. now rewrite app_nil_r.
    + cbn. now rewrite app_nil_r.
  - cbn [attach_loop] in Hloop.
    destruct (reply_target c) as [t|] eqn:Ht; [|discriminate].
    destruct (Dict.get t ps) as [p|] eqn:Hg.
    + destruct (IH _ _ (dict_set_NoDup _ _ _ Hkeys) Hloop) as [-> ->].
      split; [now apply attach_all_hit|].
      assert (Hc : Run.orphan ps c = false).
      { unfold Run.orphan, Dict.mem. now rewrite Ht, Hg. }
      cbn [filter]. rewrite Hc. do 2 f_equal.
      apply filter_ext. intros x. unfold Run.orphan.
      destruct (reply_target x); [|reflexivity].
      now rewrite (dict_mem_set t _ p).
    + destruct (title (snd c)) as [n|] eqn:Hn; cbn [getattr] in Hloop;
        [|discriminate].
      destruct (IH _ _ Hkeys Hloop) as [-> ->].
      split; [symmetry; now apply (attach_all_orphan t)|].
      assert (Hc : Run.orphan ps c = true).
      { unfold Run.orphan, Dict.mem. now rewrite Ht, Hg. }
      assert (Hw : Run.warning_for c = warning_line n).
      { unfold Run.warning_for. now rewrite Hn. }
      cbn [filter]. rewrite Hc. cbn [map]. rewrite Hw.
      now rewrite <- app_assoc.
Qed.


End CorrelationMore.

Lemma attachment_follows_feed_order_witness :
  [("http://e/2010/05/a.html", Sample.post_a)]
  = Run.attach_all [(1, Sample.alice); (5, Sample.stray); (2, Sample.bob)]
      [("http://e/2010/05/a.html",
        {| p_entry := (0, Sample.entry_a); p_comments := [] |})].
Proof.
  refine (proj1 (attachment_follows_feed_order
                   [(1, Sample.alice); (5, Sample.stray); (2, Sample.bob)]
                   [("http://e/2010/05/a.html",
                     {| p_entry := (0, Sample.entry_a); p_comments := [] |})]
                   [] _ ["Warning: Comment 'lost' has no corresponding post!"]
                   _ eq_refl)).
  repeat constructor. intros [].
Defined.


(** ** The third loop: file names, files, exceptions *)

Section WritingMore.
Import PyStr Feed Main.

Variable write_scalar : nat -> string -> string.
Variable args : Args.

Lemma flatten_cons (c : ascii) (s : string) :
  replace "/" "-" (String c s)
  = String (if Ascii.eqb "/" c then "-"%char else c) (replace "/" "-" s).
Proof.
  unfold replace. cbn [replace_from startswith len String.length].
  destruct (Ascii.eqb "/" c); reflexivity.
Qed.

Lemma flatten_app (a b : string) :
  replace "/" "-" (a ++ b) = replace "/" "-" a ++ replace "/" "-" b.
Proof.
  induction a as [|c a IH]; [reflexivity|].
  cbn [append]. rewrite !flatten_cons. cbn [append]. now rewrite IH.
Qed.

Lemma flatten_no_slash (s : string) : contains "/" (replace "/" "-" s) = false.
Proof.
  induction s as [|c s IH]; [reflexivity|].
  rewrite flatten_cons. cbn [contains startswith].
  destruct (Ascii.eqb "/" c) eqn:E.
  - cbn. exact IH.
  - rewrite E. exact IH.
Qed.

Lemma flatten_len (s : string) : len (replace "/" "-" s) = len s.
Proof.
  induction s as [|c s IH]; [reflexivity|].
  rewrite flatten_cons. unfold len in *. cbn [String.length]. now rewrite IH.
Qed.

Lemma flatten_all_space (s : string) :
  all_space (replace "/" "-" s) = all_space s.
Proof.
  induction s as [|c s IH]; [reflexivity|].
  rewrite flatten_cons. cbn [all_space]. rewrite IH.
  destruct (Ascii.eqb "/" c) eqn:E; [|reflexivity].
  apply Ascii.eqb_eq in E. subst c. reflexivity.
Qed.

Lemma blank_false_all_space (s : string) : blank s = false <-> all_space s = false.
Proof.
  pose proof (blank_all_space s) as H.
  destruct (blank s), (all_space s); split; intros E; try reflexivity;
    try discriminate; exfalso.
  - destruct H as [H _]. specialize (H eq_refl). discriminate.
  - destruct H as [_ H]. specialize (H eq_refl). discriminate.
Qed.

Lemma derive_filename_some (feed_link : option string) (key f : string) :
  derive_filename feed_link key = Ok (Some f) ->
  exists name : string,
    stripped_name feed_link key = Ok name
    /\ blank name = false /\ startswith "p-" name = false
    /\ f = replace "/" "-" name.
Proof.
  unfold derive_filename.
  destruct (stripped_name feed_link key) as [name|e]; cbn [bind]; [|discriminate].
  destruct (blank name) eqn:B; [discriminate|].
  destruct (startswith "p-" name) eqn:P; [discriminate|].
  intros [= <-]. now exists name.
Qed.

(** X6: the name of every file written is flat and not blank: it contains no
    slash, is as long as the name it is flattened from, and has a character
    that is no white space. *)
Theorem written_name_is_flat
  (feed_link : option string) (key f : string)
  (Hname : derive_filename feed_link key = Ok (Some f)) :
  contains "/" f = false
  /\ all_space f = false
  /\ exists name : string,
       stripped_name feed_link key = Ok name /\ len f = len name.
Proof.
  destruct (derive_filename_some _ _ _ Hname) as (name & Hs & Hb & _ & ->).
  split; [apply flatten_no_slash|]. split.
  - rewrite flatten_all_space. now apply blank_false_all_space.
  - exists name. split; [exact Hs|apply flatten_len].
Qed.

(** X7: the [p-] test of line 107 comes before line 109 turns slashes into
    dashes: a post whose name after stripping begins with [p/] is not passed
    over, and the name of its file begins with [p-]. *)
Theorem page_path_is_not_passed_over
  (feed_link : option string) (key rest : string)
  (Hname : stripped_name feed_link key = Ok ("p/" ++ rest)) :
  derive_filename feed_link key = Ok (Some ("p-" ++ replace "/" "-" rest)).
Proof.
  unfold derive_filename. rewrite Hname. cbn [bind].
  assert (B : blank ("p/" ++ rest) = false)
    by (apply blank_false_all_space; reflexivity).
  rewrite B. cbn [startswith append]. cbn. reflexivity.
Qed.

(** X8: on a feed without a link no file is written.  When the first two
    loops end normally, the run ends normally if they hold no post and
    raises the [KeyError] of line 99 at the first post otherwise. *)
Theorem no_feed_link_no_file (data : Parsed)
  (Hnone : feed_link data = None) :
  files (main write_scalar args data) = []
  /\ (forall (st : State) (ps : Posts) (out : list string),
        classify_loop (objects (entries data)) Spec.start = (st, None) ->
        attach_loop (comments st) (posts st) (stdout st) = ((ps, out), None) ->
        raised (main write_scalar args data)
        = match ps with [] => None | _ :: _ => Some (KeyError "link") end).
Proof.
  unfold main. fold Spec.start. rewrite Hnone.
  destruct (classify_loop (objects (entries data)) Spec.start) as [st [e|]].
  - split; [reflexivity|]. intros st' ps out H. discriminate H.
  - destruct (attach_loop (comments st) (posts st) (stdout st))
      as [[ps out] [e|]] eqn:Ha.
    + split; [reflexivity|]. intros st' ps' out' Hc Ha'.
      injection Hc as <-. rewrite Ha in Ha'. discriminate Ha'.
    + destruct ps as [|[k v] ps]; (split; [reflexivity|]);
        intros st' ps' out' Hc Ha'; injection Hc as <-;
        rewrite Ha in Ha'; injection Ha' as <- _; reflexivity.
Qed.





(** X12: for a feed link that begins with [http] and has no further [http] in
    it, the second form of line 100 is the link with [https] for [http]. *)
Theorem second_form_of_http_root (r : string)
  (Hr : contains "http" r = false) :
  https_link ("http" ++ r) = "https" ++ r.
Proof.
  unfold https_link.
  change ("http" ++ r) with ("" ++ "http" ++ r).
  rewrite replace_first by (discriminate || reflexivity).
  now rewrite replace_absent.
Qed.

Lemma all_space_app (a b : string) :
  all_space (a ++ b) = all_space a && all_space b.
Proof.
  induction a as [|c a IH]; [reflexivity|].
  cbn [append all_space]. now rewrite IH, andb_assoc.
Qed.

Lemma md_no_border (a b : string) :
  a <> "" ->
  startswith ".md" (a ++ ".md" ++ b) = true ->
  startswith ".md" a = true.
Proof.
  intros Ha H.
  destruct a as [|c1 [|c2 [|c3 a]]]; [congruence| | |];
    cbn [startswith append] in H |- *;
    repeat match type of H with
      | (if Ascii.eqb ?x ?y then _ else _) = true =>
          destruct (Ascii.eqb x y) eqn:?; [|discriminate]
      end; try discriminate; reflexivity.
Qed.

Lemma md_first_occurrence (a b : string) :
  contains ".md" a = false ->
  Spec.no_match_in ".md" a (".md" ++ b) = true.
Proof.
  induction a as [|c a IH]; intros H; [reflexivity|].
  cbn [contains] in H.
  destruct (startswith ".md" (String c a)) eqn:E; [discriminate|].
  cbn [Spec.no_match_in]. rewrite (IH H), andb_true_r.
  apply negb_true_iff.
  destruct (startswith ".md" (String c a ++ ".md" ++ b)) eqn:E'; [|reflexivity].
  apply md_no_border in E'; congruence.
Qed.

Lemma eqb_flattened (x c : ascii) :
  x <> "/"%char -> x <> "-"%char ->
  Ascii.eqb x (if Ascii.eqb "/" c then "-"%char else c) = Ascii.eqb x c.
Proof.
  intros H1 H2. destruct (Ascii.eqb "/" c) eqn:E; [|reflexivity].
  apply Ascii.eqb_eq in E. subst c.
  apply Ascii.eqb_neq in H1, H2. now rewrite H1, H2.
Qed.

Lemma startswith_md_flatten (s : string) :
  startswith ".md" (replace "/" "-" s) = startswith ".md" s.
Proof.
  destruct s as [|c1 [|c2 [|c3 s]]]; rewrite ?flatten_cons;
    cbn [startswith]; rewrite ?eqb_flattened by discriminate; reflexivity.
Qed.

Lemma contains_md_flatten (s : string) :
  contains ".md" (replace "/" "-" s) = contains ".md" s.
Proof.
  induction s as [|c s IH]; [reflexivity|].
  rewrite flatten_cons. cbn [contains]. rewrite <- flatten_cons.
  now rewrite startswith_md_flatten, IH.
Qed.

(** X13: the usual link: for a post link made of the feed link, a path and
    [.html], where the feed link followed by the path contains no [.html]
    (none in either and none across the join), the path followed by [.md]
    contains neither form of the feed link and does not begin with [p-],
    the file is named after the path, slashes turned into dashes, with
    [.md]; and when the path contains no [.md] the slug of the front matter
    is that name without its [.md]. *)
Theorem usual_link_is_named_after_its_path
  (root path : string)
  (Hroot : root <> "")
  (Hhtml : contains ".html" (root ++ path) = false)
  (Hr : contains root (path ++ ".md") = false)
  (Hv : contains (https_link root) (path ++ ".md") = false)
  (Hp : startswith "p-" (path ++ ".md") = false) :
  derive_filename (Some root) (root ++ path ++ ".html")
  = Ok (Some (replace "/" "-" path ++ ".md"))
  /\ (contains ".md" path = false ->
      forall (value : Obj) (tl : list string) (fm : Yaml.mapping),
        frontmatter value (replace "/" "-" path ++ ".md") tl = Ok fm ->
        Dict.get "slug" fm = Some (Yaml.YStr (replace "/" "-" path))).
Proof.
  split.
  - assert (H1 : html_to_md (root ++ path ++ ".html") = root ++ path ++ ".md").
    { unfold html_to_md. rewrite <- app_assoc_str.
      pose proof (replace_first ".html" ".md" (root ++ path) "") as R.
      cbn [append] in R. rewrite R;
        [now rewrite app_assoc_str|discriminate|
          now apply (html_first_occurrence (root ++ path) "")]. }
    assert (H2 : replace root "" (root ++ path ++ ".md") = path ++ ".md").
    { rewrite replace_match by (auto using startswith_app).
      rewrite drop_app. cbn [append]. now apply replace_absent. }
    unfold derive_filename, stripped_name. cbn [getitem bind].
    rewrite H1, H2, (replace_absent _ _ _ Hv).
    assert (B : blank (path ++ ".md") = false).
    { apply blank_false_all_space. rewrite all_space_app.
      apply andb_false_r. }
    rewrite B, Hp, flatten_app. reflexivity.
  - intros Hmd value tl fm. unfold frontmatter.
    destruct (published (snd value)); cbn [getitem bind]; [|discriminate].
    destruct (title (snd value)); cbn [getitem bind]; [|discriminate].
    intros [= <-]. cbn [Dict.get String.eqb]. cbn. do 2 f_equal.
    pose proof (replace_first ".md" "" (replace "/" "-" path) "") as R.
    cbn [append] in R. rewrite R; [apply app_empty_r|discriminate|].
    apply (md_first_occurrence _ ""). now rewrite contains_md_flatten.
Qed.

End WritingMore.

Lemma no_feed_link_no_file_witness :
  Main.files
    (Main.main Sample.plain Sample.args
       {| Feed.feed_link := None; Feed.entries := [Sample.entry_a] |})
  = [].
Proof.
  exact (proj1 (no_feed_link_no_file Sample.plain Sample.args
                  {| Feed.feed_link := None; Feed.entries := [Sample.entry_a] |}
                  eq_refl)).
Defined.

Lemma written_name_is_flat_witness :
  PyStr.contains "/" "2010-05-my-post.md" = false.
Proof.
  exact (proj1 (written_name_is_flat (Some "http://example.com/")
                  "http://example.com/2010/05/my-post.html"
                  "2010-05-my-post.md" eq_refl)).
Defined.

Lemma page_path_is_not_passed_over_witness :
  Main.derive_filename (Some "http://e/") "http://e/p/about.html"
  = Ok (Some "p-about.md").
Proof.
  exact (page_path_is_not_passed_over (Some "http://e/") "http://e/p/about.html"
           "about.md" eq_refl).
Defined.




Lemma second_form_of_http_root_witness :
  Main.https_link "http://blog.example.com/" = "https://blog.example.com/".
Proof.
  exact (second_form_of_http_root "://blog.example.com/" eq_refl).
Defined.

Lemma usual_link_is_named_after_its_path_witness :
  Main.derive_filename (Some "http://example.com/")
    "http://example.com/2010/05/my-post.html"
  = Ok (Some "2010-05-my-post.md").
Proof.
  exact (proj1 (usual_link_is_named_after_its_path
                  "http://example.com/" "2010/05/my-post"
                  ltac:(discriminate) eq_refl eq_refl eq_refl eq_refl)).
Defined.

